(** * Email Reply Generator: a shallow embedding of [email_reply_generator.py]

    The program is a Tkinter application: two text widgets, a tone selector,
    three buttons and a status line.  Pressing "Generate Reply" validates the
    input, starts a background thread that performs one chat-completion call
    and hands the outcome back to the Tk event loop with [root.after].

    The embedding keeps the structure of the source:
    - Python [str] values are sequences of Unicode code points;
    - the Tk widgets are records holding what the program can observe of them;
    - every method of [EmailReplyGeneratorApp] is a function on the
      application state, named as in the source;
    - threads started and callbacks scheduled with [root.after] are explicit
      queues of the run-time state, and the calls that reach the model service
      are logged. *)

From Stdlib Require Import NArith List String Ascii Bool Lia.
From stdpp Require Import base option list gmap.

Local Open Scope N_scope.
Set Warnings "-register-all".

(** ** Python strings *)

Module Py.

(** A Python [str]: a sequence of code points. *)
Abbreviation str := (list N).

(** A string literal of the source (all of them are ASCII). *)
Definition lit (s : string) : str :=
  map N_of_ascii (list_ascii_of_string s).
Arguments lit s%_string.

(** The line feed, written ["\n"] in Python. *)
Definition NL : str := [10].

(** [c.isspace()] for one code point, as CPython's [_PyUnicode_IsWhitespace]:
    the characters [str.strip()] removes when called without argument. *)
Definition isspace (c : N) : bool :=
  ((9 <=? c) && (c <=? 13))
  || ((28 <=? c) && (c <=? 32))
  || (c =? 133) || (c =? 160) || (c =? 5760)
  || ((8192 <=? c) && (c <=? 8202))
  || (c =? 8232) || (c =? 8233) || (c =? 8239) || (c =? 8287)
  || (c =? 12288).

(** [s.lstrip()] *)
Fixpoint lstrip (s : str) : str :=
  match s with
  | [] => []
  | c :: r => if isspace c then lstrip r else s
  end.

(** [s.rstrip()] *)
Definition rstrip (s : str) : str := rev (lstrip (rev s)).

(** [s.strip()] *)
Definition strip (s : str) : str := rstrip (lstrip s).

(** Truth value of a string: [not s] holds exactly for the empty string. *)
Definition truthy (s : str) : bool :=
  match s with [] => false | _ :: _ => true end.

(** Truth value of [os.getenv]'s result: [None] and [""] are both false. *)
Definition truthy_opt (o : option str) : bool :=
  match o with None => false | Some s => truthy s end.

(** [s.startswith(p)] *)
Fixpoint startswith (s p : str) {struct p} : bool :=
  match p, s with
  | [], _ => true
  | _ :: _, [] => false
  | a :: p', b :: s' => (a =? b) && startswith s' p'
  end.

(** [sub in s] *)
Fixpoint contains (s sub : str) : bool :=
  startswith s sub ||
  match s with
  | [] => false
  | _ :: s' => contains s' sub
  end.

(** The same as a proposition: [sub] occurs somewhere inside [s]. *)
Definition occurs_in (sub s : str) : Prop :=
  exists pre post, s = pre ++ sub ++ post.

(** A string no character of which survives [strip]. *)
Definition all_whitespace (s : str) : Prop := Forall (fun c => isspace c = true) s.

End Py.

(** ** The Tk widgets the program uses *)

Module Tk.
Import Py.

(** [tk.NORMAL] and [tk.DISABLED]. *)
Inductive wstate := NORMAL | DISABLED.

(** A [Text] widget.  Tk always keeps one final newline after the text; [chars]
    is what precedes it.  A disabled widget ignores [insert] and [delete]. *)
Record Text := mkText { chars : str; tstate : wstate }.

(** [w.get("1.0", tk.END)]: everything up to the end of the widget, the final
    newline included. *)
Definition get_all (w : Text) : str := chars w ++ NL.

(** [w.delete("1.0", tk.END)] *)
Definition delete_all (w : Text) : Text :=
  match tstate w with
  | NORMAL => mkText [] NORMAL
  | DISABLED => w
  end.

(** A surrogate code point, U+D800 to U+DFFF. *)
Definition surrogate (c : N) : bool := (55296 <=? c) && (c <=? 57343).

(** A text Tk takes as it is: no U+0000 and no surrogate in it. *)
Definition plain (s : str) : bool :=
  forallb (fun c => negb (c =? 0) && negb (surrogate c)) s.

(** The text up to its first U+0000: what the widget keeps of a string. *)
Fixpoint upto_nul (s : str) : str :=
  match s with
  | [] => []
  | c :: r => if c =? 0 then [] else c :: upto_nul r
  end.

(** The string Tcl receives for the argument of [insert], a Python value that
    is [None] or a [str]; no string when the call raises.  The call raises for
    [None] and for a string with a surrogate in it, which cannot be encoded;
    of a string with U+0000 in it only the text before it arrives. *)
Definition tcl_of (arg : option str) : option str :=
  match arg with
  | None => None
  | Some s => if existsb surrogate s then None else Some (upto_nul s)
  end.

(** [.w insert end s], the command of the widget on the string [s] that Tcl
    has received: the text goes before the final newline.  A Python call
    [w.insert(tk.END, arg)] is [tcl_of arg] followed by this command. *)
Definition insert_end (s : str) (w : Text) : Text :=
  match tstate w with
  | NORMAL => mkText (chars w ++ s) NORMAL
  | DISABLED => w
  end.

(** [w.config(state=st)] *)
Definition config_state (st : wstate) (w : Text) : Text :=
  mkText (chars w) st.

End Tk.

(** ** Python values, exceptions and the effect of calling the service *)

Module Runtime.
Import Py.

(** The Python values that occur as arguments of the service call. *)
Inductive pyval :=
| VStr (s : str)
| VList (l : list pyval)
| VDict (d : list (str * pyval)).

(** The keyword arguments of one call, in the order they are written. *)
Abbreviation kwargs := (list (str * pyval)).

(** A raised exception: its class name and [str(e)].  Every exception of the
    model derives from [Exception], so [except Exception] catches it. *)
Record exn := mkExn { exn_class : str; exn_str : str }.

Inductive result (A : Type) :=
| Return (a : A)
| Raise (e : exn).
Arguments Return {A} a.
Arguments Raise {A} e.

(** The part of an OpenAI chat completion the program reads:
    [response.choices[0].message.content].  The content is a [str], or [None]
    for a message without text (a refusal, a tool call). *)
Record ChatCompletionMessage := mkMessage { content : option str }.
Record Choice := mkChoice { message : ChatCompletionMessage }.
Record ChatCompletion := mkCompletion { choices : list Choice }.

(** A computation that may call the service and may raise: the calls made, in
    order, and how it ended. *)
Definition M (A : Type) : Type := (list kwargs * result A)%type.

Definition ret {A} (a : A) : M A := ([], Return a).

Definition raise {A} (e : exn) : M A := ([], Raise e).

Definition bind {A B} (m : M A) (f : A -> M B) : M B :=
  match m with
  | (l, Return a) => let (l', r) := f a in (l ++ l', r)
  | (l, Raise e) => (l, Raise e)
  end.

(** [try: m  except Exception as e: h e] *)
Definition try_except {A} (m : M A) (h : exn -> M A) : M A :=
  match m with
  | (l, Raise e) => let (l', r) := h e in (l ++ l', r)
  | (l, Return a) => (l, Return a)
  end.

Notation "'do' x <- m 'then' k" := (bind m (fun x => k))
  (at level 10, x name, m at level 100, k at level 200).

(** [l[0]] on a Python list. *)
Definition index0 {A} (l : list A) : M A :=
  match l with
  | x :: _ => ret x
  | [] => raise (mkExn (lit "IndexError") (lit "list index out of range"))
  end.

Definition calls_of {A} (m : M A) : list kwargs := fst m.
Definition outcome_of {A} (m : M A) : result A := snd m.

(** *** Reading a call back *)

(** [d[k]] on the items of a dictionary (or of keyword arguments). *)
Fixpoint assoc (k : str) (d : list (str * pyval)) : option pyval :=
  match d with
  | [] => None
  | (k', v) :: r => if bool_decide (k = k') then Some v else assoc k r
  end.

(** The string under key [k] of a dictionary value. *)
Definition dict_str (k : str) (v : pyval) : option str :=
  match v with
  | VDict d => match assoc k d with Some (VStr s) => Some s | _ => None end
  | _ => None
  end.

(** The [model] argument of a call. *)
Definition model_of (request : kwargs) : option str :=
  match assoc (lit "model") request with Some (VStr s) => Some s | _ => None end.

(** The [messages] argument of a call. *)
Definition messages_of (request : kwargs) : list pyval :=
  match assoc (lit "messages") request with Some (VList l) => l | _ => [] end.

(** The roles and the contents of the messages of a call, in order. *)
Definition roles_of (request : kwargs) : list str :=
  omap (dict_str (lit "role")) (messages_of request).

Definition prompt_parts (request : kwargs) : list str :=
  omap (dict_str (lit "content")) (messages_of request).

(** The names of the arguments of a call. *)
Definition argument_names (request : kwargs) : list str := map fst request.

End Runtime.

(** ** The application *)

Module App.
Import Py Tk Runtime.

(** What the program can observe of [self] and of the root window. *)
Record App := mkApp {
  email_input : Text;        (* self.email_input *)
  tone_var : str;            (* self.tone_var *)
  reply_output : Text;       (* self.reply_output *)
  generate_button : wstate;  (* state of self.generate_button *)
  status_var : str;          (* self.status_var *)
  clipboard : str            (* what self.root offers on the clipboard *)
}.

(** [self.status_var.set(s)] *)
Definition set_status (s : str) (a : App) : App :=
  mkApp (email_input a) (tone_var a) (reply_output a) (generate_button a) s
        (clipboard a).

(** [self.generate_button.config(state=st)] *)
Definition config_button (st : wstate) (a : App) : App :=
  mkApp (email_input a) (tone_var a) (reply_output a) st (status_var a)
        (clipboard a).

(** An operation on [self.reply_output]. *)
Definition on_reply_output (f : Text -> Text) (a : App) : App :=
  mkApp (email_input a) (tone_var a) (f (reply_output a)) (generate_button a)
        (status_var a) (clipboard a).

(** An operation on [self.email_input]. *)
Definition on_email_input (f : Text -> Text) (a : App) : App :=
  mkApp (f (email_input a)) (tone_var a) (reply_output a) (generate_button a)
        (status_var a) (clipboard a).

(** [self.root.clipboard_clear()] *)
Definition clipboard_clear (a : App) : App :=
  mkApp (email_input a) (tone_var a) (reply_output a) (generate_button a)
        (status_var a) [].

(** [self.root.clipboard_append(s)] *)
Definition clipboard_append (s : str) (a : App) : App :=
  mkApp (email_input a) (tone_var a) (reply_output a) (generate_button a)
        (status_var a) (clipboard a ++ s).

(** The values of the tone selector, a read-only combo box. *)
Definition tones : list str :=
  [lit "formal"; lit "casual"; lit "friendly"; lit "professional";
   lit "enthusiastic"].

(** How a method called by the event loop ended: it returned, or an exception
    left it. *)
Inductive ended := Normally | WithException.

(** A callback scheduled with [self.root.after(0, f, arg)]. *)
Inductive Callback :=
| CbUpdateReply (reply : option str) (* self._update_reply, reply *)
| CbShowError (error_message : str). (* self._show_error, str(e) *)

(** The running program: the application, the background threads started and
    not yet run (with their arguments), the callbacks waiting in the event
    loop, and the calls the model service has received. *)
Record World := mkWorld {
  app : App;
  threads : list (str * str);
  after_queue : list Callback;
  api_log : list kwargs
}.

Definition on_app (f : App -> App) (w : World) : World :=
  mkWorld (f (app w)) (threads w) (after_queue w) (api_log w).

(** [threading.Thread(target=self._process_reply, args=(e, t)).start()] *)
Definition thread_start (e t : str) (w : World) : World :=
  mkWorld (app w) (threads w ++ [(e, t)]) (after_queue w) (api_log w).

(** [self.root.after(0, cb)] *)
Definition root_after (cb : Callback) (w : World) : World :=
  mkWorld (app w) (threads w) (after_queue w ++ [cb]) (api_log w).

Section Methods.

(** [self.openai.chat.completions.create]: what the service answers to a call.
    It either raises or returns a completion. *)
Variable create : kwargs -> result ChatCompletion.

Definition chat_completions_create (request : kwargs) : M ChatCompletion :=
  ([request], create request).

(** [generate_reply]: the handler of the "Generate Reply" button. *)
Definition generate_reply (w : World) : World :=
  let email_content := strip (get_all (email_input (app w))) in
  let tone := tone_var (app w) in
  if negb (truthy email_content) then
    on_app (set_status (lit "Error: Please enter email content")) w
  else
    let w := on_app (config_button DISABLED) w in
    let w := on_app (set_status (lit "Generating reply...")) w in
    thread_start email_content tone w.

(** [_update_reply]: the state it leaves and how it ended.  [reply] is what
    [generate_email_reply] returned, a [str] or [None].  When [insert] raises
    nothing catches the exception: the rest of the method does not run. *)
Definition _update_reply (reply : option str) (a : App) : App * ended :=
  let a := on_reply_output (config_state NORMAL) a in
  let a := on_reply_output delete_all a in
  match tcl_of reply with
  | None => (a, WithException)
  | Some s =>
      let a := on_reply_output (insert_end s) a in
      let a := on_reply_output (config_state DISABLED) a in
      let a := config_button NORMAL a in
      (set_status (lit "Reply generated successfully") a, Normally)
  end.

(** [_show_error] *)
Definition _show_error (error_message : str) (a : App) : App :=
  let a := set_status (lit "Error: " ++ error_message) a in
  config_button NORMAL a.

(** The two prompts of [generate_email_reply]. *)
Definition system_prompt (tone : str) : str :=
  lit "Rephrase the following email in a " ++ tone ++ lit " tone.".

Definition user_prompt (email_content : str) : str :=
  lit "Email content: " ++ email_content.

(** The keyword arguments [generate_email_reply] passes to the service. *)
Definition request_of (email_content tone : str) : kwargs :=
  [ (lit "model", VStr (lit "gpt-4o-mini"));
    (lit "messages",
     VList [ VDict [ (lit "role", VStr (lit "system"));
                     (lit "content", VStr (system_prompt tone)) ];
             VDict [ (lit "role", VStr (lit "user"));
                     (lit "content", VStr (user_prompt email_content)) ] ]) ].

(** [generate_email_reply] *)
Definition generate_email_reply (email_content tone : str) : M (option str) :=
  try_except
    (do response <- chat_completions_create (request_of email_content tone) then
     do choice <- index0 (choices response) then
     ret (content (message choice)))
    (fun e =>
       raise (mkExn (lit "Exception") (lit "OpenAI API error: " ++ exn_str e))).

(** [_process_reply]: the body of the background thread. *)
Definition _process_reply (email_content tone : str) (w : World) : World :=
  let (calls, r) := generate_email_reply email_content tone in
  let w := mkWorld (app w) (threads w) (after_queue w) (api_log w ++ calls) in
  match r with
  | Return reply => root_after (CbUpdateReply reply) w
  | Raise e => root_after (CbShowError (exn_str e)) w
  end.

(** [clear_fields] *)
Definition clear_fields (a : App) : App :=
  let a := on_email_input delete_all a in
  let a := on_reply_output (config_state NORMAL) a in
  let a := on_reply_output delete_all a in
  let a := on_reply_output (config_state DISABLED) a in
  set_status (lit "Fields cleared") a.

(** [copy_to_clipboard] *)
Definition copy_to_clipboard (a : App) : App :=
  let a := clipboard_clear a in
  let a := clipboard_append (get_all (reply_output a)) a in
  set_status (lit "Copied to clipboard") a.

(** *** The event loop and the scheduler *)

(** Running a callback of the event loop.  An exception that leaves the
    callback is reported by Tk and the loop goes on, in the state the callback
    left. *)
Definition run_callback (cb : Callback) (a : App) : App :=
  match cb with
  | CbUpdateReply reply => fst (_update_reply reply a)
  | CbShowError error_message => _show_error error_message a
  end.

(** The oldest background thread runs to completion. *)
Definition run_thread (w : World) : World :=
  match threads w with
  | [] => w
  | (e, t) :: rest =>
      _process_reply e t (mkWorld (app w) rest (after_queue w) (api_log w))
  end.

(** The event loop runs the oldest scheduled callback. *)
Definition run_after (w : World) : World :=
  match after_queue w with
  | [] => w
  | cb :: rest =>
      mkWorld (run_callback cb (app w)) (threads w) rest (api_log w)
  end.

(** Pressing a button: Tk ignores a press on a disabled button. *)
Definition click_generate (w : World) : World :=
  match generate_button (app w) with
  | NORMAL => generate_reply w
  | DISABLED => w
  end.

(** One request from the press of the button to the delivery of its outcome. *)
Definition request_reply (w : World) : World :=
  run_after (run_thread (generate_reply w)).

(** The user replaces the text of the input widget, or picks a tone. *)
Definition edit_input (s : str) (a : App) : App :=
  on_email_input (fun t => mkText s (tstate t)) a.

(** The user replaces the text of the output widget, which Tk allows while the
    widget is in its normal state. *)
Definition edit_output (s : str) (a : App) : App :=
  on_reply_output (fun t => mkText s (tstate t)) a.

Definition select_tone (t : str) (a : App) : App :=
  mkApp (email_input a) t (reply_output a) (generate_button a) (status_var a)
        (clipboard a).

(** What can happen next in the running program. *)
Inductive step : World -> World -> Prop :=
| step_edit w s : step w (on_app (edit_input s) w)
| step_tone w t : In t tones -> step w (on_app (select_tone t) w)
| step_edit_output w s :
    tstate (reply_output (app w)) = NORMAL -> step w (on_app (edit_output s) w)
| step_generate w : step w (click_generate w)
| step_clear w : step w (on_app clear_fields w)
| step_copy w : step w (on_app copy_to_clipboard w)
| step_thread w : threads w <> [] -> step w (run_thread w)
| step_after w : after_queue w <> [] -> step w (run_after w).

End Methods.

(** No request is under way: the button is enabled and nothing is pending. *)
Definition Idle (w : World) : Prop :=
  generate_button (app w) = NORMAL /\ threads w = [] /\ after_queue w = [].

(** At most one request is under way, and the button is disabled while it
    is.  The button can be disabled with nothing under way: after an
    [_update_reply] that an exception left. *)
Definition single_flight (w : World) : Prop :=
  match generate_button (app w) with
  | NORMAL => threads w = [] /\ after_queue w = []
  | DISABLED =>
      (exists e t, threads w = [(e, t)] /\ after_queue w = []) \/
      (threads w = [] /\ exists cb, after_queue w = [cb]) \/
      (threads w = [] /\ after_queue w = [])
  end.

(** The button is disabled and nothing is under way that could enable it. *)
Definition Stuck (w : World) : Prop :=
  generate_button (app w) = DISABLED /\ threads w = [] /\ after_queue w = [].

(** What holds of the widgets in every state of the program. *)
Definition well_formed (w : World) : Prop :=
  tstate (email_input (app w)) = NORMAL /\
  (tstate (reply_output (app w)) = DISABLED \/ Stuck w) /\
  In (tone_var (app w)) tones /\
  single_flight w.

(** *** Start-up *)

(** What the start-up does to the outside, in order. *)
Inductive Event :=
| EvTk                      (* tk.Tk() *)
| EvTitle (s : str)         (* root.title(s) *)
| EvGeometry (s : str)      (* root.geometry(s) *)
| EvMinsize (w h : N)       (* root.minsize(w, h) *)
| EvOpenAI (api_key : str)  (* OpenAI(api_key=api_key) *)
| EvMainloop.               (* root.mainloop() *)

(** [load_dotenv()]: the variables of the [.env] file are added to the process
    environment; a variable that is already set keeps its value. *)
Definition load_dotenv (dotenv environ : gmap str str) : gmap str str :=
  environ ∪ dotenv.

(** [os.getenv(name)] *)
Definition getenv (environ : gmap str str) (name : str) : option str :=
  environ !! name.

(** The placeholder put into the input widget. *)
Definition placeholder : str :=
  lit "Enter the email you want to reply to here...".

(** [EmailReplyGeneratorApp.__init__]: the events up to the end or to the
    exception, and the application built. *)
Definition __init__ (environ : gmap str str) : list Event * result App :=
  let pre := [EvTitle (lit "Email Reply Generator");
              EvGeometry (lit "800x600"); EvMinsize 600 400] in
  let api_key := getenv environ (lit "OPENAI_API_KEY") in
  if negb (truthy_opt api_key) then
    (pre, Raise (mkExn (lit "ValueError")
       (lit "No OpenAI API key found. Please set OPENAI_API_KEY in your .env file.")))
  else
    (pre ++ [EvOpenAI (default [] api_key)],
     Return (mkApp (insert_end placeholder (mkText [] NORMAL))
                   (lit "formal")
                   (config_state DISABLED (mkText [] NORMAL))
                   NORMAL
                   (lit "Ready")
                   [])).

(** [main]: the events, and the world the event loop starts from, if it does. *)
Definition main (environ : gmap str str) : list Event * result World :=
  let (evs, r) := __init__ environ in
  match r with
  | Raise e => (EvTk :: evs, Raise e)
  | Return a => (EvTk :: evs ++ [EvMainloop], Return (mkWorld a [] [] []))
  end.

(** The script: the module is loaded, which calls [load_dotenv], then [main]
    runs. *)
Definition script (dotenv environ : gmap str str) : list Event * result World :=
  main (load_dotenv dotenv environ).

(** The states of the program started in environment [environ] with the
    service [create]. *)
Inductive reachable (create : kwargs -> result ChatCompletion)
    (environ : gmap str str) : World -> Prop :=
| reach_init evs w : main environ = (evs, Return w) -> reachable create environ w
| reach_step w w' :
    reachable create environ w -> step create w w' ->
    reachable create environ w'.

End App.

(** ** Concrete services and states, for the examples *)

Module Examples.
Import Py Tk Runtime App.

(** A service that answers every call with one candidate. *)
Definition stub_ok (request : kwargs) : result ChatCompletion :=
  Return (mkCompletion
            [mkChoice (mkMessage (Some (lit "Sure, how about Friday?")))]).

(** A service whose candidate has no text. *)
Definition stub_none (request : kwargs) : result ChatCompletion :=
  Return (mkCompletion [mkChoice (mkMessage None)]).

(** A service whose candidate holds the lone surrogate U+D800. *)
Definition stub_surrogate (request : kwargs) : result ChatCompletion :=
  Return (mkCompletion [mkChoice (mkMessage (Some (lit "Sure" ++ [55296])))]).

(** A service that fails with a transport error. *)
Definition stub_fail (request : kwargs) : result ChatCompletion :=
  Raise (mkExn (lit "APIConnectionError") (lit "Connection error.")).

(** The application with the given input text and tone, nothing generated. *)
Definition app_with (email_text tone : str) : App :=
  mkApp (mkText email_text NORMAL) tone (mkText [] DISABLED) NORMAL
        (lit "Ready") [].

Definition world_with (email_text tone : str) : World :=
  mkWorld (app_with email_text tone) [] [] [].

(** An environment that holds a key. *)
Definition environ_with_key : gmap str str :=
  {[ lit "OPENAI_API_KEY" := lit "sk-test" ]}.

End Examples.

(** ** Notions used to state what the program keeps *)

Module Notions.
Import Py Tk Runtime App.

(** The arguments [generate_reply] may give to a thread: a text that is not
    empty and has no surrounding whitespace, and a tone of the selector. *)
Definition valid_args (p : str * str) : Prop :=
  fst p <> [] /\ strip (fst p) = fst p /\ In (snd p) tones.

(** A call built by [generate_email_reply] from such arguments. *)
Definition sound_request (request : kwargs) : Prop :=
  exists e t, request = request_of e t /\ valid_args (e, t).

(** [reply] is the content of the first candidate the service returned to one
    of the calls of [log]. *)
Definition from_service (create : kwargs -> result ChatCompletion)
    (log : list kwargs) (reply : str) : Prop :=
  exists request c rest,
    In request log /\
    create request = Return (mkCompletion (c :: rest)) /\
    content (message c) = Some reply.

(** The first candidate of every completion of the service has a plain
    text. *)
Definition plain_service (create : kwargs -> result ChatCompletion) : Prop :=
  forall request c rest,
    create request = Return (mkCompletion (c :: rest)) ->
    exists reply, content (message c) = Some reply /\ plain reply = true.

Definition callback_from_service (create : kwargs -> result ChatCompletion)
    (log : list kwargs) (cb : Callback) : Prop :=
  match cb with
  | CbUpdateReply reply =>
      exists text, reply = Some text /\ plain text = true /\
                   from_service create log text
  | CbShowError _ => True
  end.

(** The callback [_process_reply] schedules, by what the service answered. *)
Definition callback_of (r : result ChatCompletion) : Callback :=
  match r with
  | Return (mkCompletion (c :: _)) => CbUpdateReply (content (message c))
  | Return (mkCompletion []) =>
      CbShowError (lit "OpenAI API error: list index out of range")
  | Raise err => CbShowError (lit "OpenAI API error: " ++ exn_str err)
  end.

(** The state [__init__] builds. *)
Definition initial_world : World :=
  mkWorld (mkApp (mkText placeholder NORMAL) (lit "formal")
                 (mkText [] DISABLED) NORMAL (lit "Ready") [])
          [] [] [].

(** A service that returns a completion without candidates. *)
Definition stub_empty (request : kwargs) : result ChatCompletion :=
  Return (mkCompletion []).

(** The events of a start-up that succeeds with [api_key]. *)
Definition startup_events (api_key : str) : list Event :=
  [EvTk; EvTitle (lit "Email Reply Generator"); EvGeometry (lit "800x600");
   EvMinsize 600 400; EvOpenAI api_key; EvMainloop].

End Notions.

(** * Properties *)

(** ** Facts about [strip] and [in] *)

Module PyFacts.
Import Py.

Lemma isspace_NL : isspace 10 = true.
Proof. reflexivity. Qed.

(** [lstrip] removes a prefix of whitespace and nothing else. *)
Lemma lstrip_split (s : str) :
  exists ws, s = ws ++ lstrip s /\ all_whitespace ws.
Proof.
  induction s as [|c r IH]; simpl.
  - exists []. split; [reflexivity | constructor].
  - destruct (isspace c) eqn:Hc.
    + destruct IH as (ws & Heq & Hws). exists (c :: ws). split.
      * simpl. f_equal. exact Heq.
      * constructor; assumption.
    + exists []. split; [reflexivity | constructor].
Qed.

Lemma lstrip_head (s : str) c r : lstrip s = c :: r -> isspace c = false.
Proof.
  induction s as [|d t IH]; simpl; [discriminate|].
  destruct (isspace d) eqn:Hd; [exact IH|].
  intros [= -> _]. exact Hd.
Qed.

Lemma lstrip_all_whitespace (s : str) : all_whitespace s -> lstrip s = [].
Proof.
  induction 1 as [|c r Hc _ IH]; simpl; [reflexivity|].
  rewrite Hc. exact IH.
Qed.

Lemma lstrip_nil_inv (s : str) : lstrip s = [] -> all_whitespace s.
Proof.
  induction s as [|c r IH]; simpl; [constructor|].
  destruct (isspace c) eqn:Hc; [|discriminate].
  intros H. constructor; [exact Hc | exact (IH H)].
Qed.

Lemma lstrip_idem (s : str) : lstrip (lstrip s) = lstrip s.
Proof.
  induction s as [|c r IH]; simpl; [reflexivity|].
  destruct (isspace c) eqn:Hc; [exact IH|]. simpl. now rewrite Hc.
Qed.

Lemma lstrip_length (s : str) : (length (lstrip s) <= length s)%nat.
Proof.
  induction s as [|c r IH]; simpl; [lia|].
  destruct (isspace c); simpl; lia.
Qed.

Lemma all_whitespace_app (s t : str) :
  all_whitespace (s ++ t) <-> all_whitespace s /\ all_whitespace t.
Proof. unfold all_whitespace. apply Forall_app. Qed.

Lemma all_whitespace_rev (s : str) : all_whitespace (rev s) <-> all_whitespace s.
Proof.
  unfold all_whitespace. rewrite !List.Forall_forall.
  split; intros H x Hx; apply H; [apply -> in_rev | apply <- in_rev]; exact Hx.
Qed.

(** [rstrip] removes a suffix of whitespace and nothing else. *)
Lemma rstrip_split (s : str) :
  exists ws, s = rstrip s ++ ws /\ all_whitespace ws.
Proof.
  unfold rstrip. destruct (lstrip_split (rev s)) as (ws & Heq & Hws).
  exists (rev ws). split.
  - rewrite <- rev_app_distr, <- Heq. symmetry. apply rev_involutive.
  - apply all_whitespace_rev. exact Hws.
Qed.

Lemma rstrip_length (s : str) : (length (rstrip s) <= length s)%nat.
Proof.
  unfold rstrip. rewrite length_rev.
  etransitivity; [apply lstrip_length|]. now rewrite length_rev.
Qed.

Lemma strip_length (s : str) : (length (strip s) <= length s)%nat.
Proof.
  unfold strip. etransitivity; [apply rstrip_length | apply lstrip_length].
Qed.

Lemma rstrip_nil_iff (s : str) : rstrip s = [] <-> all_whitespace s.
Proof.
  unfold rstrip. split.
  - intros H. apply all_whitespace_rev, lstrip_nil_inv.
    apply (f_equal (@rev N)) in H. rewrite rev_involutive in H. exact H.
  - intros H. rewrite lstrip_all_whitespace; [reflexivity|].
    apply all_whitespace_rev. exact H.
Qed.

(** A whitespace character at the end does not survive [rstrip]. *)
Lemma rstrip_snoc_space (s : str) c :
  isspace c = true -> rstrip (s ++ [c]) = rstrip s.
Proof.
  intros Hc. unfold rstrip. rewrite rev_app_distr. simpl. now rewrite Hc.
Qed.

(** What is left of a string after [strip] is empty exactly when the string is
    empty or whitespace only. *)
Lemma strip_nil_iff (s : str) : strip s = [] <-> all_whitespace s.
Proof.
  unfold strip. rewrite rstrip_nil_iff. split.
  - intros H. destruct (lstrip_split s) as (ws & Heq & Hws).
    rewrite Heq. apply all_whitespace_app. split; assumption.
  - intros H. rewrite lstrip_all_whitespace by exact H. constructor.
Qed.

Lemma lstrip_app_not_all (s t : str) :
  lstrip s <> [] -> lstrip (s ++ t) = lstrip s ++ t.
Proof.
  induction s as [|c r IH]; simpl; [congruence|].
  destruct (isspace c); [exact IH | reflexivity].
Qed.

(** The final newline Tk adds to the text of a widget does not survive
    [strip]. *)
Lemma strip_app_NL (s : str) : strip (s ++ NL) = strip s.
Proof.
  unfold strip. destruct (lstrip s) as [|c r] eqn:Hl.
  - apply lstrip_nil_inv in Hl.
    rewrite lstrip_all_whitespace; [reflexivity|].
    apply all_whitespace_app. split; [exact Hl|].
    repeat constructor.
  - rewrite lstrip_app_not_all by congruence. rewrite Hl.
    apply (rstrip_snoc_space (c :: r) 10 isspace_NL).
Qed.

(** The first and the last character of a stripped string are not
    whitespace. *)
Lemma strip_head (s : str) c r : strip s = c :: r -> isspace c = false.
Proof.
  unfold strip. intros H.
  destruct (rstrip_split (lstrip s)) as (ws & Heq & _).
  rewrite H in Heq. simpl in Heq. eapply lstrip_head. exact Heq.
Qed.

Lemma strip_last (s : str) r c : strip s = r ++ [c] -> isspace c = false.
Proof.
  unfold strip, rstrip. intros H.
  apply (f_equal (@rev N)) in H. rewrite rev_involutive, rev_app_distr in H.
  simpl in H. eapply lstrip_head. exact H.
Qed.

(** [strip] leaves a string without surrounding whitespace as it is. *)
Lemma strip_idem (s : str) : strip (strip s) = strip s.
Proof.
  destruct (strip s) as [|c r] eqn:Hs; [reflexivity|].
  assert (Hc : isspace c = false) by (eapply strip_head; exact Hs).
  unfold strip at 1. simpl. rewrite Hc.
  unfold strip, rstrip in Hs. unfold rstrip.
  rewrite <- Hs at 1. rewrite rev_involutive, lstrip_idem. exact Hs.
Qed.

Lemma strip_last_char (s : str) :
  strip s <> [] -> exists r c, strip s = r ++ [c] /\ isspace c = false.
Proof.
  intros Hne. destruct (exists_last Hne) as (r & c & Heq).
  exists r, c. split; [exact Heq | eapply strip_last; exact Heq].
Qed.

(** A string that neither starts nor ends with whitespace is its own
    [strip]. *)
Lemma strip_fixed (s : str) c r r' d :
  s = c :: r -> isspace c = false ->
  s = r' ++ [d] -> isspace d = false ->
  strip s = s.
Proof.
  intros Hhead Hc Hlast Hd. unfold strip.
  assert (Hl : lstrip s = s) by (rewrite Hhead; simpl; now rewrite Hc).
  rewrite Hl. unfold rstrip. rewrite Hlast at 1.
  rewrite rev_app_distr. simpl. rewrite Hd.
  change (d :: rev r') with (rev [d] ++ rev r').
  rewrite <- rev_app_distr, rev_involutive. symmetry. exact Hlast.
Qed.

Lemma startswith_spec (s p : str) :
  startswith s p = true <-> exists post, s = p ++ post.
Proof.
  revert s. induction p as [|a p IH]; intros s; simpl.
  - split; [intros _; exists s; reflexivity | reflexivity].
  - destruct s as [|b s]; simpl.
    + split; [discriminate | intros [post H]; discriminate].
    + rewrite andb_true_iff, N.eqb_eq, IH. split.
      * intros [-> [post ->]]. exists post. reflexivity.
      * intros [post [= -> ->]]. split; [reflexivity | exists post; reflexivity].
Qed.

(** Python's [sub in s] decides whether [sub] occurs in [s]. *)
Lemma contains_spec (s sub : str) :
  contains s sub = true <-> occurs_in sub s.
Proof.
  unfold occurs_in. induction s as [|c s IH].
  - simpl. rewrite orb_false_r, startswith_spec. split.
    + intros [post H]. exists [], post. exact H.
    + intros (pre & post & H). destruct pre; [|discriminate].
      exists post. exact H.
  - cbn [contains]. rewrite orb_true_iff, startswith_spec, IH. split.
    + intros [[post H] | (pre & post & H)].
      * exists [], post. exact H.
      * exists (c :: pre), post. simpl. now rewrite H.
    + intros (pre & post & H). destruct pre as [|d pre].
      * left. exists post. exact H.
      * right. injection H as _ H. exists pre, post. exact H.
Qed.

Lemma contains_false (s sub : str) :
  contains s sub = false -> ~ occurs_in sub s.
Proof.
  intros H Hocc. apply contains_spec in Hocc. congruence.
Qed.

Lemma occurs_in_suffix (p s : str) : occurs_in s (p ++ s).
Proof. exists p, []. now rewrite app_nil_r. Qed.

End PyFacts.

(** ** Facts about the methods *)

Module AppFacts.
Import Py Tk Runtime App PyFacts.

(** *** The call built by [generate_email_reply] *)

Lemma request_of_parts (e t : str) :
  prompt_parts (request_of e t) = [system_prompt t; user_prompt e].
Proof. reflexivity. Qed.

Lemma request_of_roles (e t : str) :
  roles_of (request_of e t) = [lit "system"; lit "user"].
Proof. reflexivity. Qed.

Lemma request_of_model (e t : str) :
  model_of (request_of e t) = Some (lit "gpt-4o-mini").
Proof. reflexivity. Qed.

Lemma request_of_arguments (e t : str) :
  argument_names (request_of e t) = [lit "model"; lit "messages"].
Proof. reflexivity. Qed.

Section WithService.

Variable create : kwargs -> result ChatCompletion.

(** [generate_email_reply] calls the service once, whatever it answers. *)
Lemma generate_email_reply_calls (e t : str) :
  calls_of (generate_email_reply create e t) = [request_of e t].
Proof.
  unfold generate_email_reply, chat_completions_create, try_except, bind.
  destruct (create (request_of e t)) as [[[|c rest]]|err]; reflexivity.
Qed.

Lemma generate_email_reply_ok (e t : str) c rest :
  create (request_of e t) = Return (mkCompletion (c :: rest)) ->
  generate_email_reply create e t = ([request_of e t], Return (content (message c))).
Proof.
  intros H. unfold generate_email_reply, chat_completions_create, try_except, bind.
  rewrite H. reflexivity.
Qed.

Lemma generate_email_reply_raises (e t : str) err :
  create (request_of e t) = Raise err ->
  generate_email_reply create e t =
    ([request_of e t],
     Raise (mkExn (lit "Exception") (lit "OpenAI API error: " ++ exn_str err))).
Proof.
  intros H. unfold generate_email_reply, chat_completions_create, try_except, bind.
  rewrite H. reflexivity.
Qed.

(** A completion without candidates makes [choices[0]] raise inside the [try]:
    it ends as the same kind of error. *)
Lemma generate_email_reply_no_choice (e t : str) :
  create (request_of e t) = Return (mkCompletion []) ->
  generate_email_reply create e t =
    ([request_of e t],
     Raise (mkExn (lit "Exception")
                  (lit "OpenAI API error: list index out of range"))).
Proof.
  intros H. unfold generate_email_reply, chat_completions_create, try_except, bind.
  rewrite H. reflexivity.
Qed.

(** The thread makes the one call of [generate_email_reply] and schedules one
    callback. *)
Lemma _process_reply_effect (e t : str) (w : World) :
  exists cb,
    _process_reply create e t w =
      mkWorld (app w) (threads w) (after_queue w ++ [cb])
              (api_log w ++ [request_of e t]).
Proof.
  unfold _process_reply.
  pose proof (generate_email_reply_calls e t) as Hc.
  destruct (generate_email_reply create e t) as [calls [reply|err]];
    unfold calls_of in Hc; simpl in Hc; subst calls; eexists; reflexivity.
Qed.

End WithService.

(** *** [generate_reply] *)

Lemma generate_reply_blank (w : World) :
  strip (get_all (email_input (app w))) = [] ->
  generate_reply w =
    on_app (set_status (lit "Error: Please enter email content")) w.
Proof. intros H. unfold generate_reply. rewrite H. reflexivity. Qed.

Lemma generate_reply_valid (w : World) :
  strip (get_all (email_input (app w))) <> [] ->
  generate_reply w =
    mkWorld (set_status (lit "Generating reply...")
               (config_button DISABLED (app w)))
            (threads w ++ [(strip (get_all (email_input (app w))),
                            tone_var (app w))])
            (after_queue w) (api_log w).
Proof.
  intros H. unfold generate_reply.
  destruct (strip (get_all (email_input (app w)))); [congruence|reflexivity].
Qed.

(** What [generate_reply] strips is the text of the widget. *)
Lemma strip_get_all (t : Text) : strip (get_all t) = strip (chars t).
Proof. apply strip_app_NL. Qed.

(** *** The widgets after each method *)

(** Tk takes a plain text as it is. *)
Lemma tcl_of_plain (text : str) : plain text = true -> tcl_of (Some text) = Some text.
Proof.
  unfold tcl_of, plain. intros H.
  assert (Hs : existsb surrogate text = false /\ upto_nul text = text).
  { induction text as [|c r IH]; [split; reflexivity|].
    cbn [forallb] in H. apply andb_true_iff in H. destruct H as [Hc Hr].
    apply andb_true_iff in Hc. destruct Hc as [Hz Hsur].
    destruct (IH Hr) as [IH1 IH2]. cbn [existsb upto_nul].
    apply negb_true_iff in Hz, Hsur. rewrite Hz, Hsur, IH1, IH2.
    split; reflexivity. }
  destruct Hs as [-> ->]. reflexivity.
Qed.

(** [_update_reply] when [insert] takes the reply, and when it raises. *)
Lemma _update_reply_accepted (reply : option str) (text : str) (a : App) :
  tcl_of reply = Some text ->
  _update_reply reply a =
    (mkApp (email_input a) (tone_var a) (mkText text DISABLED) NORMAL
           (lit "Reply generated successfully") (clipboard a),
     Normally).
Proof. intros H. unfold _update_reply. rewrite H. reflexivity. Qed.

Lemma _update_reply_refused (reply : option str) (a : App) :
  tcl_of reply = None ->
  _update_reply reply a =
    (mkApp (email_input a) (tone_var a) (mkText [] NORMAL) (generate_button a)
           (status_var a) (clipboard a),
     WithException).
Proof. intros H. unfold _update_reply. rewrite H. reflexivity. Qed.

Lemma _update_reply_plain (text : str) (a : App) :
  plain text = true ->
  _update_reply (Some text) a =
    (mkApp (email_input a) (tone_var a) (mkText text DISABLED) NORMAL
           (lit "Reply generated successfully") (clipboard a),
     Normally).
Proof. intros H. apply _update_reply_accepted, tcl_of_plain, H. Qed.

(** The placeholder is plain: [__init__] inserts it as it is. *)
Lemma placeholder_is_plain : tcl_of (Some placeholder) = Some placeholder.
Proof. reflexivity. Qed.

(** Three replies Tk does not take as they are: no text and a lone surrogate
    make [insert] raise, which leaves the button as it was and the output
    widget empty and editable; of "a", U+0000, "b" the widget keeps "a". *)
Example _update_reply_none :
  _update_reply None (Examples.app_with (lit "Hi") (lit "formal")) =
    (mkApp (mkText (lit "Hi") NORMAL) (lit "formal") (mkText [] NORMAL) NORMAL
           (lit "Ready") [],
     WithException).
Proof. reflexivity. Qed.

Example _update_reply_lone_surrogate :
  _update_reply (Some [55296]) (Examples.app_with (lit "Hi") (lit "formal")) =
    (mkApp (mkText (lit "Hi") NORMAL) (lit "formal") (mkText [] NORMAL) NORMAL
           (lit "Ready") [],
     WithException).
Proof. reflexivity. Qed.

Example _update_reply_nul :
  reply_output (fst (_update_reply (Some [97; 0; 98])
                                   (Examples.app_with (lit "Hi") (lit "formal")))) =
    mkText [97] DISABLED.
Proof. reflexivity. Qed.

Lemma clear_fields_output (a : App) :
  reply_output (clear_fields a) = mkText [] DISABLED.
Proof. reflexivity. Qed.

Lemma clear_fields_input (a : App) :
  tstate (email_input a) = NORMAL ->
  email_input (clear_fields a) = mkText [] NORMAL.
Proof.
  intros H. unfold clear_fields. simpl. unfold delete_all. now rewrite H.
Qed.

Lemma copy_to_clipboard_content (a : App) :
  clipboard (copy_to_clipboard a) = chars (reply_output a) ++ NL.
Proof. reflexivity. Qed.

(** *** Every state of the program is well formed *)

(** A callback never touches the input widget nor the tone.  It enables the
    button and leaves the output widget read-only, unless it is an
    [_update_reply] whose [insert] raises: then the button is as it was and
    the output widget is left editable. *)
Lemma run_callback_widgets (cb : Callback) (a : App) :
  email_input (run_callback cb a) = email_input a /\
  tone_var (run_callback cb a) = tone_var a /\
  ((generate_button (run_callback cb a) = NORMAL /\
    (tstate (reply_output a) = DISABLED ->
     tstate (reply_output (run_callback cb a)) = DISABLED)) \/
   (generate_button (run_callback cb a) = generate_button a /\
    tstate (reply_output (run_callback cb a)) = NORMAL)).
Proof.
  destruct cb as [reply|msg]; cbn [run_callback].
  - destruct (tcl_of reply) as [text|] eqn:H.
    + rewrite (_update_reply_accepted reply text a H).
      repeat split. left. split; reflexivity.
    + rewrite (_update_reply_refused reply a H).
      repeat split. right. split; reflexivity.
  - repeat split. left. split; [reflexivity | intros H; exact H].
Qed.


Lemma main_well_formed (environ : gmap str str) evs w :
  main environ = (evs, Return w) -> well_formed w.
Proof.
  unfold main, __init__.
  destruct (negb (truthy_opt (getenv environ (lit "OPENAI_API_KEY"))));
    [discriminate|].
  intros [= _ <-]. split; [reflexivity|]. split; [left; reflexivity|].
  split; [|split; reflexivity]. unfold tones. simpl. auto.
Qed.

Lemma Stuck_on_app (f : App -> App) (w : World) :
  generate_button (f (app w)) = generate_button (app w) ->
  Stuck w -> Stuck (on_app f w).
Proof. intros Hf (Hb & Hth & Haq). unfold Stuck. cbn. rewrite Hf. auto. Qed.

Lemma step_well_formed create (w w' : World) :
  step create w w' -> well_formed w -> well_formed w'.
Proof.
  intros Hstep (Hin & Hout & Htone & Hsf). unfold single_flight in Hsf.
  destruct Hstep as [w s|w t Ht|w s Hn|w|w|w|w Hne|w Hne].
  - split; [exact Hin|]. split; [|split; assumption].
    destruct Hout as [H|H]; [left; exact H | right].
    apply Stuck_on_app; [reflexivity | exact H].
  - split; [exact Hin|]. split; [|split; assumption].
    destruct Hout as [H|H]; [left; exact H | right].
    apply Stuck_on_app; [reflexivity | exact H].
  - split; [exact Hin|]. split; [|split; assumption].
    destruct Hout as [H|H]; [left; exact H | right].
    apply Stuck_on_app; [reflexivity | exact H].
  - unfold click_generate.
    destruct (generate_button (app w)) eqn:Hb;
      [|split; [exact Hin|]; split; [exact Hout|]; split; [exact Htone|];
        unfold single_flight; now rewrite Hb].
    destruct Hsf as [Hth Haq].
    assert (Ho : tstate (reply_output (app w)) = DISABLED)
      by (destruct Hout as [H|(H & _)]; [exact H | congruence]).
    destruct (strip (get_all (email_input (app w)))) as [|c r] eqn:Hs.
    + rewrite generate_reply_blank by exact Hs.
      split; [exact Hin|]. split; [left; exact Ho|]. split; [exact Htone|].
      unfold single_flight. simpl. rewrite Hb. split; assumption.
    + rewrite generate_reply_valid by (rewrite Hs; discriminate).
      split; [exact Hin|]. split; [left; exact Ho|]. split; [exact Htone|].
      unfold single_flight. simpl. left. rewrite Hth, Hs. eauto.
  - split; [simpl; unfold delete_all; now rewrite Hin|].
    split; [left; reflexivity|]. split; [exact Htone | exact Hsf].
  - split; [exact Hin|]. split; [|split; assumption].
    destruct Hout as [H|H]; [left; exact H | right].
    apply Stuck_on_app; [reflexivity | exact H].
  - unfold run_thread.
    destruct (generate_button (app w)) eqn:Hb; [destruct Hsf; contradiction|].
    destruct Hsf as [(e & t & Hth & Haq)|[[Hth _]|[Hth _]]]; try contradiction.
    rewrite Hth.
    destruct (_process_reply_effect create e t
                (mkWorld (app w) [] (after_queue w) (api_log w))) as [cb ->].
    split; [exact Hin|]. split; [|split; [exact Htone|]].
    + left. destruct Hout as [H|(_ & H & _)]; [exact H | congruence].
    + unfold single_flight. simpl. rewrite Hb, Haq. right. left. eauto.
  - unfold run_after.
    destruct (generate_button (app w)) eqn:Hb; [destruct Hsf; contradiction|].
    destruct Hsf as [(e & t & _ & Haq)|[[Hth [cb Haq]]|[_ Haq]]];
      try contradiction.
    rewrite Haq.
    assert (Ho : tstate (reply_output (app w)) = DISABLED).
    { destruct Hout as [H|(_ & _ & H)]; [exact H|]. rewrite Haq in H.
      discriminate. }
    destruct (run_callback_widgets cb (app w)) as (Hi & Ht & Hc).
    split; [simpl; now rewrite Hi|]. split; [|split; [simpl; now rewrite Ht|]].
    + destruct Hc as [[_ Hd]|[Hbtn _]].
      * left. simpl. exact (Hd Ho).
      * right. unfold Stuck. simpl. rewrite Hbtn, Hb. auto.
    + unfold single_flight. simpl. destruct Hc as [[-> _]|[-> _]].
      * auto.
      * rewrite Hb. right. right. auto.
Qed.

(** Once the button is disabled with nothing under way, it stays so. *)
Lemma Stuck_step create (w w' : World) : Stuck w -> step create w w' -> Stuck w'.
Proof.
  intros HS Hstep. pose proof HS as (Hb & Hth & Haq).
  destruct Hstep as [w s|w t Ht|w s Hn|w|w|w|w Hne|w Hne];
    try (apply Stuck_on_app; [reflexivity | exact HS]);
    try contradiction.
  unfold click_generate. rewrite Hb. exact HS.
Qed.

(** The text [copy_to_clipboard] would add a newline to is never the text
    [insert] was given. *)
Lemma upto_nul_newline (text : str) : upto_nul text ++ NL <> text.
Proof.
  induction text as [|c r IH]; [discriminate|]. cbn [upto_nul].
  destruct (c =? 0) eqn:Hc.
  - apply N.eqb_eq in Hc. subst c. discriminate.
  - cbn. intros [= H]. exact (IH H).
Qed.

Lemma reachable_well_formed create environ (w : World) :
  reachable create environ w -> well_formed w.
Proof.
  induction 1 as [evs w Hmain|w w' _ IH Hstep].
  - eapply main_well_formed. exact Hmain.
  - eapply step_well_formed; eassumption.
Qed.

(** *** Start-up *)

(** [load_dotenv] cannot remove a variable, and adds the key only if the file
    has it. *)
Lemma load_dotenv_missing (dotenv environ : gmap str str) (name : str) :
  environ !! name = None -> dotenv !! name = None ->
  getenv (load_dotenv dotenv environ) name = None.
Proof.
  intros He Hd. unfold getenv, load_dotenv.
  apply lookup_union_None. split; assumption.
Qed.

Lemma load_dotenv_keeps (dotenv environ : gmap str str) (name value : str) :
  environ !! name = Some value ->
  getenv (load_dotenv dotenv environ) name = Some value.
Proof.
  intros He. unfold getenv, load_dotenv.
  apply lookup_union_Some_l. exact He.
Qed.

(** An empty key is refused like a missing one. *)
Lemma __init___empty_key (environ : gmap str str) :
  getenv environ (lit "OPENAI_API_KEY") = Some [] ->
  exists evs e, __init__ environ = (evs, Raise e) /\
                exn_class e = lit "ValueError".
Proof.
  intros H. unfold __init__. rewrite H. simpl. eauto.
Qed.

(** With a key the program starts: the event loop is entered, in a state
    where no request is under way. *)
Lemma main_starts_with_key (environ : gmap str str) (key : str) :
  getenv environ (lit "OPENAI_API_KEY") = Some key -> key <> [] ->
  exists evs w, main environ = (evs, Return w) /\ In EvMainloop evs /\ Idle w.
Proof.
  intros H Hne. unfold main, __init__. rewrite H.
  destruct key as [|c r]; [congruence|]. cbn [truthy_opt truthy negb].
  eexists _, _. split; [reflexivity|]. split.
  - cbn. tauto.
  - repeat split.
Qed.

Example main_environ_with_key :
  exists evs w, main Examples.environ_with_key = (evs, Return w) /\
                In EvMainloop evs /\ Idle w.
Proof.
  apply (main_starts_with_key _ (lit "sk-test")); [|discriminate].
  unfold getenv, Examples.environ_with_key. apply lookup_singleton_eq.
Qed.

(** *** The scenarios of the specification *)

(** "Hi, can we reschedule?" in a casual tone, the service answering
    "Sure, how about Friday?". *)
Example scenario_success :
  let w := request_reply Examples.stub_ok
             (Examples.world_with (lit "Hi, can we reschedule?") (lit "casual")) in
  api_log w = [request_of (lit "Hi, can we reschedule?") (lit "casual")] /\
  chars (reply_output (app w)) = lit "Sure, how about Friday?" /\
  status_var (app w) = lit "Reply generated successfully" /\
  generate_button (app w) = NORMAL.
Proof. repeat split. Qed.

(** An empty input. *)
Example scenario_empty_input :
  let w := request_reply Examples.stub_ok (Examples.world_with [] (lit "formal")) in
  api_log w = [] /\
  chars (reply_output (app w)) = [] /\
  status_var (app w) = lit "Error: Please enter email content".
Proof. repeat split. Qed.

(** The service fails with a transport error. *)
Example scenario_failure :
  let w := request_reply Examples.stub_fail
             (Examples.world_with (lit "Hi") (lit "formal")) in
  status_var (app w) = lit "Error: OpenAI API error: Connection error." /\
  chars (reply_output (app w)) = [] /\
  generate_button (app w) = NORMAL.
Proof. repeat split. Qed.

(** While a request is under way, pressing the button again changes
    nothing. *)
Lemma click_generate_while_busy (w : World) :
  generate_button (app w) = DISABLED -> click_generate w = w.
Proof. intros H. unfold click_generate. now rewrite H. Qed.

End AppFacts.

(** ** The properties of the specification *)

Import Py Tk Runtime App PyFacts AppFacts Examples Notions.

(** C1, as amended.  When the text of the input widget is not empty once
    stripped, and the tone is one of the selector's, [generate_reply] followed
    by its thread sends exactly one call to the service.  The contents of its
    two messages are "Rephrase the following email in a {tone} tone." and
    "Email content: " followed by the stripped text; the latter contains the
    stripped text. *)
Theorem C1_generate_reply_dispatches_one_call
    (create : kwargs -> result ChatCompletion) (w : World) (email_text tone : str) :
  chars (email_input (app w)) = email_text ->
  tone_var (app w) = tone ->
  threads w = [] ->
  strip email_text <> [] ->
  In tone tones ->
  exists request part2,
    api_log (run_thread create (generate_reply w)) = api_log w ++ [request] /\
    threads (run_thread create (generate_reply w)) = [] /\
    prompt_parts request =
      [lit "Rephrase the following email in a " ++ tone ++ lit " tone."; part2] /\
    part2 = lit "Email content: " ++ strip email_text /\
    occurs_in (strip email_text) part2.
Proof.
  intros Hin Htone Hth Hne _.
  assert (Hs : strip (get_all (email_input (app w))) = strip email_text)
    by (rewrite strip_get_all, Hin; reflexivity).
  rewrite generate_reply_valid by (rewrite Hs; exact Hne).
  unfold run_thread. cbn [threads]. rewrite Hth, Hs, Htone.
  cbn [List.app app after_queue api_log].
  destruct (_process_reply_effect create (strip email_text) tone
    (mkWorld (set_status (lit "Generating reply...")
                (config_button DISABLED (app w)))
             [] (after_queue w) (api_log w))) as [cb ->].
  exists (request_of (strip email_text) tone), (user_prompt (strip email_text)).
  repeat split. apply occurs_in_suffix.
Qed.

(** C1, as stated, fails: with the text "Hi, can we reschedule? " (a space at
    the end) and the tone "casual", the one call that is sent carries
    "Email content: Hi, can we reschedule?", in which the text of the widget
    does not occur. *)
Lemma C1_literal_text_is_not_sent :
  let email_text := lit "Hi, can we reschedule? " in
  let w := world_with email_text (lit "casual") in
  strip email_text <> [] /\
  In (tone_var (app w)) tones /\
  api_log (run_thread stub_ok (generate_reply w)) =
    [request_of (lit "Hi, can we reschedule?") (lit "casual")] /\
  prompt_parts (request_of (lit "Hi, can we reschedule?") (lit "casual")) =
    [lit "Rephrase the following email in a casual tone.";
     lit "Email content: Hi, can we reschedule?"] /\
  ~ occurs_in email_text (lit "Email content: Hi, can we reschedule?").
Proof.
  cbv zeta. split; [|split; [|split; [|split]]].
  - vm_compute. discriminate.
  - vm_compute. tauto.
  - vm_compute. reflexivity.
  - vm_compute. reflexivity.
  - apply contains_false. vm_compute. reflexivity.
Qed.

(** C2.  When the text of the input widget is empty or whitespace only,
    [generate_reply] only sets the status to an error message: it starts no
    thread, schedules nothing, and the service receives no call, also when the
    scheduler runs afterwards. *)
Theorem C2_blank_input_is_rejected
    (create : kwargs -> result ChatCompletion) (w : World) :
  all_whitespace (chars (email_input (app w))) ->
  generate_reply w =
    on_app (set_status (lit "Error: Please enter email content")) w /\
  status_var (app (generate_reply w)) = lit "Error: Please enter email content" /\
  threads (generate_reply w) = threads w /\
  after_queue (generate_reply w) = after_queue w /\
  api_log (generate_reply w) = api_log w /\
  reply_output (app (generate_reply w)) = reply_output (app w) /\
  generate_button (app (generate_reply w)) = generate_button (app w) /\
  (threads w = [] ->
   api_log (run_after (run_thread create (generate_reply w))) = api_log w).
Proof.
  intros Hws.
  assert (Hs : strip (get_all (email_input (app w))) = [])
    by (rewrite strip_get_all; apply strip_nil_iff; exact Hws).
  rewrite generate_reply_blank by exact Hs.
  repeat split.
  intros Hth. unfold run_thread. cbn [threads on_app]. rewrite Hth.
  unfold run_after, on_app. cbn [after_queue].
  destruct (after_queue w); reflexivity.
Qed.

Lemma C2_blank_input_is_rejected_witness :
  let w := world_with (lit "   ") (lit "formal") in
  status_var (app (generate_reply w)) = lit "Error: Please enter email content" /\
  threads (generate_reply w) = [] /\
  api_log (run_after (run_thread stub_ok (generate_reply w))) = [].
Proof.
  cbv zeta.
  destruct (C2_blank_input_is_rejected stub_ok
              (world_with (lit "   ") (lit "formal")))
    as (_ & Hstatus & Hth & _ & _ & _ & _ & Hlog).
  - repeat constructor.
  - split; [exact Hstatus | split; [exact Hth | apply Hlog; reflexivity]].
Defined.

Lemma C1_generate_reply_dispatches_one_call_witness :
  exists request part2,
    api_log (run_thread stub_ok
               (generate_reply (world_with (lit " Hi, can we reschedule? ")
                                           (lit "casual")))) = [] ++ [request] /\
    threads (run_thread stub_ok
               (generate_reply (world_with (lit " Hi, can we reschedule? ")
                                           (lit "casual")))) = [] /\
    prompt_parts request =
      [lit "Rephrase the following email in a " ++ lit "casual" ++ lit " tone.";
       part2] /\
    part2 = lit "Email content: " ++ strip (lit " Hi, can we reschedule? ") /\
    occurs_in (strip (lit " Hi, can we reschedule? ")) part2.
Proof.
  apply (C1_generate_reply_dispatches_one_call stub_ok
           (world_with (lit " Hi, can we reschedule? ") (lit "casual"))
           (lit " Hi, can we reschedule? ") (lit "casual")).
  - reflexivity.
  - reflexivity.
  - reflexivity.
  - vm_compute. discriminate.
  - vm_compute. tauto.
Defined.

(** C3.  What [_update_reply] followed by [copy_to_clipboard] really puts on
    the clipboard: for a plain text, the text and one more character, the
    final newline that [get("1.0", tk.END)] returns with the text of the
    widget.  Whatever the text, the clipboard never holds exactly the text. *)
Theorem C3_clipboard_gets_an_extra_newline (text : str) (a : App) :
  (plain text = true ->
   clipboard (copy_to_clipboard (fst (_update_reply (Some text) a))) =
     text ++ NL) /\
  clipboard (copy_to_clipboard (fst (_update_reply (Some text) a))) <> text /\
  clipboard (copy_to_clipboard
               (fst (_update_reply (Some (lit "Sure, how about Friday?"))
                                   (app_with [] (lit "casual"))))) =
    lit "Sure, how about Friday?" ++ [10].
Proof.
  split; [|split; [|reflexivity]].
  - intros Hp. rewrite (_update_reply_plain text a Hp). reflexivity.
  - destruct (tcl_of (Some text)) as [kept|] eqn:H.
    + rewrite (_update_reply_accepted (Some text) kept a H).
      cbn [fst]. rewrite copy_to_clipboard_content. cbn [reply_output chars].
      unfold tcl_of in H. destruct (existsb surrogate text); [discriminate|].
      injection H as <-. apply upto_nul_newline.
    + rewrite (_update_reply_refused (Some text) a H).
      cbn [fst]. rewrite copy_to_clipboard_content. cbn [reply_output chars].
      intros Heq. rewrite <- Heq in H. discriminate.
Qed.

Lemma C3_clipboard_gets_an_extra_newline_witness :
  clipboard (copy_to_clipboard
               (fst (_update_reply (Some (lit "Best regards, Ann"))
                                   (app_with (lit "Hi") (lit "formal"))))) =
    lit "Best regards, Ann" ++ NL.
Proof.
  apply (C3_clipboard_gets_an_extra_newline (lit "Best regards, Ann")
           (app_with (lit "Hi") (lit "formal"))).
  reflexivity.
Defined.

(** C4.  When the call to the service raises, [generate_email_reply] raises
    one exception whose message is "OpenAI API error: " followed by the
    message of the error raised, and the service has been called once. *)
Theorem C4_service_failure_is_reraised
    (create : kwargs -> result ChatCompletion) (email_content tone : str)
    (e : exn) :
  create (request_of email_content tone) = Raise e ->
  exists err,
    outcome_of (generate_email_reply create email_content tone) = Raise err /\
    exn_str err = lit "OpenAI API error: " ++ exn_str e /\
    occurs_in (exn_str e) (exn_str err) /\
    calls_of (generate_email_reply create email_content tone) =
      [request_of email_content tone].
Proof.
  intros H. rewrite (generate_email_reply_raises create _ _ e H).
  eexists. split; [reflexivity|]. split; [reflexivity|].
  split; [apply occurs_in_suffix | reflexivity].
Qed.

Lemma C4_service_failure_is_reraised_witness :
  exists err,
    outcome_of (generate_email_reply stub_fail (lit "Hi") (lit "formal")) =
      Raise err /\
    exn_str err = lit "OpenAI API error: " ++ lit "Connection error." /\
    occurs_in (lit "Connection error.") (exn_str err) /\
    calls_of (generate_email_reply stub_fail (lit "Hi") (lit "formal")) =
      [request_of (lit "Hi") (lit "formal")].
Proof.
  apply (C4_service_failure_is_reraised stub_fail (lit "Hi") (lit "formal")
           (mkExn (lit "APIConnectionError") (lit "Connection error."))).
  reflexivity.
Defined.

(** C5.  [generate_email_reply] sends one call whose arguments are [model],
    the fixed "gpt-4o-mini", and [messages], and no other; the messages are
    the system prompt with role "system", then the user prompt with role
    "user".  When the service returns candidates, the result is the content
    of the first one, as it is. *)
Theorem C5_request_shape_and_result
    (create : kwargs -> result ChatCompletion) (email_content tone : str) :
  calls_of (generate_email_reply create email_content tone) =
    [ [ (lit "model", VStr (lit "gpt-4o-mini"));
        (lit "messages",
         VList [ VDict [ (lit "role", VStr (lit "system"));
                         (lit "content", VStr (system_prompt tone)) ];
                 VDict [ (lit "role", VStr (lit "user"));
                         (lit "content", VStr (user_prompt email_content)) ] ]) ] ] /\
  (forall request,
     In request (calls_of (generate_email_reply create email_content tone)) ->
     argument_names request = [lit "model"; lit "messages"] /\
     model_of request = Some (lit "gpt-4o-mini") /\
     roles_of request = [lit "system"; lit "user"] /\
     prompt_parts request = [system_prompt tone; user_prompt email_content]) /\
  (forall c rest,
     create (request_of email_content tone) = Return (mkCompletion (c :: rest)) ->
     outcome_of (generate_email_reply create email_content tone) =
       Return (content (message c))).
Proof.
  split; [apply generate_email_reply_calls|]. split.
  - rewrite generate_email_reply_calls. intros request [<-|[]].
    repeat split.
  - intros c rest H. now rewrite (generate_email_reply_ok create _ _ c rest H).
Qed.

Lemma C5_request_shape_and_result_witness :
  calls_of (generate_email_reply stub_ok (lit "Hi, can we reschedule?")
                                 (lit "casual")) =
    [request_of (lit "Hi, can we reschedule?") (lit "casual")] /\
  roles_of (request_of (lit "Hi, can we reschedule?") (lit "casual")) =
    [lit "system"; lit "user"] /\
  outcome_of (generate_email_reply stub_ok (lit "Hi, can we reschedule?")
                                   (lit "casual")) =
    Return (Some (lit "Sure, how about Friday?")).
Proof.
  destruct (C5_request_shape_and_result stub_ok (lit "Hi, can we reschedule?")
              (lit "casual")) as (Hcalls & Hshape & Hres).
  split; [exact Hcalls|]. split.
  - apply (Hshape (request_of (lit "Hi, can we reschedule?") (lit "casual"))).
    rewrite Hcalls. left. reflexivity.
  - apply (Hres (mkChoice (mkMessage (Some (lit "Sure, how about Friday?")))) []).
    reflexivity.
Defined.

(** C6.  A request does not always end with the button enabled.  When the
    reply is one [insert] raises for (no text, or a text with a surrogate),
    [_update_reply] stops before it enables the button: the request ends with
    the button disabled, the status "Generating reply...", the output widget
    empty and editable, and nothing under way; pressing the button does
    nothing, and no step of the program enables it again. *)
Theorem C6_button_stays_disabled_when_insert_raises
    (create : kwargs -> result ChatCompletion) (w : World) (c : Choice)
    (rest : list Choice) :
  threads w = [] ->
  after_queue w = [] ->
  strip (chars (email_input (app w))) <> [] ->
  create (request_of (strip (chars (email_input (app w)))) (tone_var (app w))) =
    Return (mkCompletion (c :: rest)) ->
  tcl_of (content (message c)) = None ->
  generate_button (app (request_reply create w)) = DISABLED /\
  threads (request_reply create w) = [] /\
  after_queue (request_reply create w) = [] /\
  status_var (app (request_reply create w)) = lit "Generating reply..." /\
  reply_output (app (request_reply create w)) = mkText [] NORMAL /\
  ~ Idle (request_reply create w) /\
  click_generate (request_reply create w) = request_reply create w /\
  (forall w1 w2, Stuck w1 -> step create w1 w2 -> Stuck w2).
Proof.
  intros Hth Haq Hne Hc Hraise.
  assert (H : request_reply create w =
                mkWorld (mkApp (email_input (app w)) (tone_var (app w))
                               (mkText [] NORMAL) DISABLED
                               (lit "Generating reply...") (clipboard (app w)))
                        [] [] (api_log w ++
                                 [request_of (strip (chars (email_input (app w))))
                                             (tone_var (app w))])).
  { unfold request_reply.
    rewrite generate_reply_valid by (rewrite strip_get_all; exact Hne).
    rewrite strip_get_all. unfold run_thread. cbn [threads]. rewrite Hth.
    cbn [List.app app after_queue api_log]. unfold _process_reply.
    rewrite (generate_email_reply_ok create _ _ c rest Hc).
    unfold root_after, run_after. cbn [after_queue app threads api_log].
    rewrite Haq. cbn [List.app run_callback].
    rewrite (_update_reply_refused _ _ Hraise). reflexivity. }
  rewrite H. do 5 (split; [reflexivity|]). split; [|split].
  - intros (Hb & _). discriminate.
  - reflexivity.
  - intros w1 w2. apply Stuck_step.
Qed.

Lemma C6_button_stays_disabled_when_insert_raises_witness :
  generate_button (app (request_reply stub_none initial_world)) = DISABLED /\
  ~ Idle (request_reply stub_none initial_world) /\
  generate_button (app (request_reply stub_surrogate initial_world)) = DISABLED.
Proof.
  split; [|split].
  - apply (C6_button_stays_disabled_when_insert_raises stub_none initial_world
             (mkChoice (mkMessage None)) []);
      [reflexivity | reflexivity | vm_compute; discriminate | reflexivity
      | reflexivity].
  - apply (C6_button_stays_disabled_when_insert_raises stub_none initial_world
             (mkChoice (mkMessage None)) []);
      [reflexivity | reflexivity | vm_compute; discriminate | reflexivity
      | reflexivity].
  - apply (C6_button_stays_disabled_when_insert_raises stub_surrogate
             initial_world
             (mkChoice (mkMessage (Some (lit "Sure" ++ [55296])))) []);
      [reflexivity | reflexivity | vm_compute; discriminate | reflexivity
      | reflexivity].
Defined.

(** C7.  When [OPENAI_API_KEY] is not in the process environment, [__init__]
    raises a [ValueError] with a message that says so, [main] ends with that
    exception, and the event loop is never entered. *)
Theorem C7_missing_key_is_fatal (environ : gmap str str) :
  getenv environ (lit "OPENAI_API_KEY") = None ->
  exists evs,
    main environ =
      (evs,
       Raise (mkExn (lit "ValueError")
         (lit "No OpenAI API key found. Please set OPENAI_API_KEY in your .env file."))) /\
    ~ In EvMainloop evs /\
    (forall create w, reachable create environ w -> False).
Proof.
  intros H. unfold main, __init__. rewrite H. cbn [truthy_opt negb].
  eexists. split; [reflexivity|]. split.
  - cbn [In]. intros [?|[?|[?|[?|[]]]]]; discriminate.
  - intros create w Hr.
    induction Hr as [evs w Hmain|w w' _ IH _]; [|exact IH].
    unfold main, __init__ in Hmain. rewrite H in Hmain.
    cbn [truthy_opt negb] in Hmain. discriminate.
Qed.

Lemma C7_missing_key_is_fatal_witness :
  exists evs,
    main ∅ =
      (evs,
       Raise (mkExn (lit "ValueError")
         (lit "No OpenAI API key found. Please set OPENAI_API_KEY in your .env file."))) /\
    ~ In EvMainloop evs /\
    (forall create w, reachable create ∅ w -> False).
Proof.
  apply (C7_missing_key_is_fatal ∅). reflexivity.
Defined.



(** C9.  [clear_fields] twice gives the state [clear_fields] once gives; in
    that state both widgets are empty and the status is "Fields cleared".
    The input widget is in its normal state, as it is in every state of the
    program. *)
Theorem C9_clear_fields_idempotent (a : App) :
  tstate (email_input a) = NORMAL ->
  clear_fields (clear_fields a) = clear_fields a /\
  chars (email_input (clear_fields a)) = [] /\
  chars (reply_output (clear_fields a)) = [] /\
  status_var (clear_fields a) = lit "Fields cleared".
Proof.
  intros H. destruct a as [[ci si] t ro b st cl]. simpl in H. subst si.
  repeat split.
Qed.

Lemma C9_clear_fields_idempotent_witness :
  let a := fst (_update_reply (Some (lit "Sure, how about Friday?"))
                              (app_with (lit "Hi, can we reschedule?")
                                        (lit "casual"))) in
  clear_fields (clear_fields a) = clear_fields a /\
  chars (email_input (clear_fields a)) = [] /\
  chars (reply_output (clear_fields a)) = [] /\
  status_var (clear_fields a) = lit "Fields cleared".
Proof.
  cbv zeta. apply C9_clear_fields_idempotent. reflexivity.
Defined.

(** C10.  Whatever the text of the input widget, either it is blank and
    nothing is sent, or one call is sent whose second message is
    "Email content: " followed by the stripped text.  That content is neither
    the text of the widget nor what the widget returns, and the stripped text
    neither starts nor ends with whitespace. *)
Theorem C10_content_is_prefix_and_stripped_text
    (create : kwargs -> result ChatCompletion) (w : World) (email_text : str) :
  chars (email_input (app w)) = email_text ->
  threads w = [] ->
  (all_whitespace email_text /\
   api_log (run_thread create (generate_reply w)) = api_log w) \/
  (exists request part1 part2,
     api_log (run_thread create (generate_reply w)) = api_log w ++ [request] /\
     prompt_parts request = [part1; part2] /\
     part2 = lit "Email content: " ++ strip email_text /\
     part2 <> email_text /\
     part2 <> get_all (email_input (app w)) /\
     (forall c r, strip email_text = c :: r -> isspace c = false) /\
     (forall r c, strip email_text = r ++ [c] -> isspace c = false)).
Proof.
  intros Hin Hth.
  assert (Hs : strip (get_all (email_input (app w))) = strip email_text)
    by (rewrite strip_get_all, Hin; reflexivity).
  destruct (strip email_text) as [|c0 r0] eqn:Hstrip.
  - left. split; [apply strip_nil_iff; exact Hstrip|].
    rewrite generate_reply_blank by exact Hs.
    unfold run_thread, on_app. cbn [threads]. now rewrite Hth.
  - right. rewrite generate_reply_valid by (rewrite Hs; discriminate).
    unfold run_thread. cbn [threads]. rewrite Hth, Hs.
    cbn [List.app app after_queue api_log].
    match goal with |- context [_process_reply _ ?e ?t ?w0] =>
      destruct (_process_reply_effect create e t w0) as [cb ->] end.
    exists (request_of (c0 :: r0) (tone_var (app w))),
           (system_prompt (tone_var (app w))), (user_prompt (c0 :: r0)).
    assert (Hlen : (length (c0 :: r0) <= length email_text)%nat)
      by (rewrite <- Hstrip; apply strip_length).
    repeat split.
    + unfold user_prompt. intros Heq.
      destruct (strip_last_char email_text) as (r & c & Hr & Hc);
        [rewrite Hstrip; discriminate|].
      rewrite Hstrip in Hr.
      assert (Hfix : strip email_text = email_text).
      { apply (strip_fixed email_text 69
                 (tl (lit "Email content: ") ++ c0 :: r0)
                 (lit "Email content: " ++ r) c).
        - rewrite <- Heq. reflexivity.
        - reflexivity.
        - rewrite <- Heq, Hr. apply app_assoc.
        - exact Hc. }
      rewrite Hstrip in Hfix. rewrite <- Hfix in Heq.
      apply (f_equal (@length N)) in Heq.
      rewrite length_app in Heq. simpl in Heq. lia.
    + unfold user_prompt, get_all, NL. intros Heq.
      destruct (strip_last_char email_text) as (r & c & Hr & Hc);
        [rewrite Hstrip; discriminate|].
      rewrite Hstrip in Hr. rewrite Hr, app_assoc in Heq.
      apply app_inj_tail in Heq. destruct Heq as [_ ->].
      discriminate.
    + intros c r Hc. eapply (strip_head email_text). rewrite Hstrip. exact Hc.
    + intros r c Hc. eapply (strip_last email_text). rewrite Hstrip. exact Hc.
Qed.

Lemma C10_content_is_prefix_and_stripped_text_witness :
  let email_text := lit "  Hi, can we reschedule?  " in
  let w := world_with email_text (lit "formal") in
  (all_whitespace email_text /\
   api_log (run_thread stub_ok (generate_reply w)) = api_log w) \/
  (exists request part1 part2,
     api_log (run_thread stub_ok (generate_reply w)) = api_log w ++ [request] /\
     prompt_parts request = [part1; part2] /\
     part2 = lit "Email content: " ++ strip email_text /\
     part2 <> email_text /\
     part2 <> get_all (email_input (app w)) /\
     (forall c r, strip email_text = c :: r -> isspace c = false) /\
     (forall r c, strip email_text = r ++ [c] -> isspace c = false)).
Proof.
  cbv zeta.
  apply (C10_content_is_prefix_and_stripped_text stub_ok
           (world_with (lit "  Hi, can we reschedule?  ") (lit "formal"))
           (lit "  Hi, can we reschedule?  ")).
  - reflexivity.
  - reflexivity.
Defined.

(** ** Further properties of the program *)

Module ExtraFacts.
Import Py Tk Runtime App PyFacts AppFacts Examples Notions.

(** Whitespace in front does not survive [lstrip]. *)
Lemma lstrip_app_whitespace (pre s : str) :
  all_whitespace pre -> lstrip (pre ++ s) = lstrip s.
Proof.
  induction 1 as [|c r Hc _ IH]; simpl; [reflexivity|].
  rewrite Hc. exact IH.
Qed.

Lemma rstrip_app_whitespace (s post : str) :
  all_whitespace post -> rstrip (s ++ post) = rstrip s.
Proof.
  intros H. unfold rstrip. rewrite rev_app_distr.
  rewrite lstrip_app_whitespace; [reflexivity|].
  apply all_whitespace_rev. exact H.
Qed.

(** Whitespace around a text does not change what [strip] returns. *)
Lemma strip_padding (pre s post : str) :
  all_whitespace pre -> all_whitespace post ->
  strip (pre ++ s ++ post) = strip s.
Proof.
  intros Hpre Hpost. unfold strip. rewrite lstrip_app_whitespace by exact Hpre.
  destruct (lstrip s) as [|c r] eqn:Hl.
  - apply lstrip_nil_inv in Hl.
    rewrite lstrip_all_whitespace; [reflexivity|].
    apply all_whitespace_app. split; assumption.
  - rewrite lstrip_app_not_all by congruence. rewrite Hl.
    apply rstrip_app_whitespace. exact Hpost.
Qed.

(** A string is its [strip] between two runs of whitespace. *)
Lemma strip_split (s : str) :
  exists pre post,
    s = pre ++ strip s ++ post /\ all_whitespace pre /\ all_whitespace post.
Proof.
  destruct (lstrip_split s) as (pre & Hs & Hpre).
  destruct (rstrip_split (lstrip s)) as (post & Hl & Hpost).
  exists pre, post. split; [|split; assumption].
  unfold strip. rewrite <- Hl. exact Hs.
Qed.

Section WithService.

Variable create : kwargs -> result ChatCompletion.

(** The thread: one call, one callback, chosen by the answer. *)
Lemma _process_reply_callback (e t : str) (w : World) :
  _process_reply create e t w =
    mkWorld (app w) (threads w)
            (after_queue w ++ [callback_of (create (request_of e t))])
            (api_log w ++ [request_of e t]).
Proof.
  unfold _process_reply, generate_email_reply, chat_completions_create,
    try_except, bind, callback_of.
  destruct (create (request_of e t)) as [[[|c rest]]|err]; reflexivity.
Qed.

(** A request started from a state where nothing is pending. *)
Lemma request_reply_valid (w : World) :
  threads w = [] -> after_queue w = [] ->
  strip (chars (email_input (app w))) <> [] ->
  request_reply create w =
    mkWorld
      (run_callback
         (callback_of (create (request_of (strip (chars (email_input (app w))))
                                          (tone_var (app w)))))
         (set_status (lit "Generating reply...")
            (config_button DISABLED (app w))))
      [] []
      (api_log w ++ [request_of (strip (chars (email_input (app w))))
                                (tone_var (app w))]).
Proof.
  intros Hth Haq Hne. unfold request_reply.
  rewrite generate_reply_valid by (rewrite strip_get_all; exact Hne).
  rewrite strip_get_all. unfold run_thread. cbn [threads]. rewrite Hth.
  cbn [List.app app after_queue api_log].
  rewrite _process_reply_callback. cbn [app threads after_queue api_log].
  rewrite Haq. reflexivity.
Qed.

Lemma from_service_app (log more : list kwargs) (reply : str) :
  from_service create log reply -> from_service create (log ++ more) reply.
Proof.
  intros (request & c & rest & Hin & Hc & Hr).
  exists request, c, rest. split; [|split; assumption].
  apply in_or_app. left. exact Hin.
Qed.

Lemma callback_of_from_service (request : kwargs) (log : list kwargs) :
  plain_service create ->
  callback_from_service create (log ++ [request]) (callback_of (create request)).
Proof.
  intros Hplain. unfold callback_of.
  destruct (create request) as [[[|c rest]]|err] eqn:Hc; simpl; try exact I.
  destruct (Hplain request c rest Hc) as (text & Hcontent & Hp).
  exists text. split; [exact Hcontent|]. split; [exact Hp|].
  exists request, c, rest. split; [|split; [exact Hc | exact Hcontent]].
  apply in_or_app. right. left. reflexivity.
Qed.

End WithService.

(** [main] reads the environment through the key only. *)
Lemma main_cases (environ : gmap str str) :
  main environ =
    match getenv environ (lit "OPENAI_API_KEY") with
    | Some (c :: r) => (startup_events (c :: r), Return initial_world)
    | _ =>
        ([EvTk; EvTitle (lit "Email Reply Generator");
          EvGeometry (lit "800x600"); EvMinsize 600 400],
         Raise (mkExn (lit "ValueError")
           (lit "No OpenAI API key found. Please set OPENAI_API_KEY in your .env file.")))
    end.
Proof.
  unfold main, __init__.
  destruct (getenv environ (lit "OPENAI_API_KEY")) as [[|c r]|]; reflexivity.
Qed.

Lemma environ_with_key_lookup :
  getenv environ_with_key (lit "OPENAI_API_KEY") = Some (lit "sk-test").
Proof. unfold getenv, environ_with_key. apply lookup_singleton_eq. Qed.

Lemma initial_world_reachable create :
  reachable create environ_with_key initial_world.
Proof.
  apply (reach_init create environ_with_key (startup_events (lit "sk-test"))).
  rewrite main_cases, environ_with_key_lookup. reflexivity.
Qed.

(** The state after one press of the button at start-up: a request is
    under way. *)
Lemma busy_world_reachable create :
  reachable create environ_with_key (click_generate initial_world).
Proof.
  eapply reach_step; [apply initial_world_reachable | apply step_generate].
Qed.

End ExtraFacts.

Import Notions ExtraFacts.

(** X1.  In every state the program reaches at most one request is under way
    (a thread not yet run, or a callback not yet delivered), and the button is
    disabled while one is.  The input widget stays editable, the tone is one
    of the selector's, and the output widget is read-only unless the button
    is disabled with nothing under way. *)
Theorem X1_single_flight
    (create : kwargs -> result ChatCompletion) (environ : gmap str str)
    (w : World) :
  reachable create environ w ->
  (length (threads w) + length (after_queue w) <= 1)%nat /\
  (threads w <> [] \/ after_queue w <> [] ->
   generate_button (app w) = DISABLED) /\
  (tstate (reply_output (app w)) = DISABLED \/ Stuck w) /\
  tstate (email_input (app w)) = NORMAL /\
  In (tone_var (app w)) tones.
Proof.
  intros Hr. destruct (reachable_well_formed create environ w Hr)
    as (Hin & Hout & Htone & Hsf).
  unfold single_flight in Hsf.
  split; [|split; [|repeat split; assumption]].
  - destruct (generate_button (app w)).
    + destruct Hsf as [-> ->]. simpl. lia.
    + destruct Hsf as [(e & t & -> & ->)|[[-> [cb ->]]|[-> ->]]]; simpl; lia.
  - destruct (generate_button (app w)); [|reflexivity].
    destruct Hsf as [Hth Haq]. intros [H|H]; contradiction.
Qed.

Lemma X1_single_flight_witness :
  (length (threads (click_generate initial_world)) +
   length (after_queue (click_generate initial_world)) <= 1)%nat /\
  (threads (click_generate initial_world) <> [] \/
   after_queue (click_generate initial_world) <> [] ->
   generate_button (app (click_generate initial_world)) = DISABLED) /\
  (tstate (reply_output (app (click_generate initial_world))) = DISABLED \/
   Stuck (click_generate initial_world)) /\
  tstate (email_input (app (click_generate initial_world))) = NORMAL /\
  In (tone_var (app (click_generate initial_world))) tones.
Proof.
  apply (X1_single_flight stub_none environ_with_key).
  apply busy_world_reachable.
Defined.



(** X3.  While a request is under way in a state the program reaches, pressing
    "Generate Reply" changes nothing: no second thread, no second call. *)
Theorem X3_generate_ignored_while_busy
    (create : kwargs -> result ChatCompletion) (environ : gmap str str)
    (w : World) :
  reachable create environ w ->
  threads w <> [] \/ after_queue w <> [] ->
  click_generate w = w.
Proof.
  intros Hr Hbusy.
  destruct (reachable_well_formed create environ w Hr) as (_ & _ & _ & Hsf).
  unfold single_flight in Hsf. unfold click_generate.
  destruct (generate_button (app w)); [|reflexivity].
  destruct Hsf as [Hth Haq]. destruct Hbusy; contradiction.
Qed.

Lemma X3_generate_ignored_while_busy_witness :
  click_generate (click_generate initial_world) = click_generate initial_world.
Proof.
  apply (X3_generate_ignored_while_busy stub_ok environ_with_key).
  - apply busy_world_reachable.
  - left. vm_compute. discriminate.
Defined.

(** X4.  [_process_reply] never touches the widgets: it calls the service
    once and schedules one callback, [_update_reply] with the content of the
    first candidate, or [_show_error] with "OpenAI API error: " and the
    message of what went wrong (an exception of the service, or the
    [IndexError] of a completion without candidates). *)
Theorem X4_process_reply_effect
    (create : kwargs -> result ChatCompletion) (e t : str) (w : World) :
  app (_process_reply create e t w) = app w /\
  threads (_process_reply create e t w) = threads w /\
  api_log (_process_reply create e t w) = api_log w ++ [request_of e t] /\
  after_queue (_process_reply create e t w) =
    after_queue w ++
    [match create (request_of e t) with
     | Return (mkCompletion (c :: _)) => CbUpdateReply (content (message c))
     | Return (mkCompletion []) =>
         CbShowError (lit "OpenAI API error: list index out of range")
     | Raise err => CbShowError (lit "OpenAI API error: " ++ exn_str err)
     end].
Proof. rewrite _process_reply_callback. repeat split. Qed.

(** X5.  A request that passes validation and that the service answers with
    a plain text ends with that text, the content of the first candidate, in
    the output widget, whatever the widget held, the status "Reply generated
    successfully", the input, the tone and the clipboard as they were, and one
    more call in the log. *)
Theorem X5_successful_request
    (create : kwargs -> result ChatCompletion) (w : World) (c : Choice)
    (rest : list Choice) (reply : str) :
  threads w = [] -> after_queue w = [] ->
  strip (chars (email_input (app w))) <> [] ->
  create (request_of (strip (chars (email_input (app w)))) (tone_var (app w))) =
    Return (mkCompletion (c :: rest)) ->
  content (message c) = Some reply ->
  plain reply = true ->
  reply_output (app (request_reply create w)) = mkText reply DISABLED /\
  status_var (app (request_reply create w)) = lit "Reply generated successfully" /\
  email_input (app (request_reply create w)) = email_input (app w) /\
  tone_var (app (request_reply create w)) = tone_var (app w) /\
  clipboard (app (request_reply create w)) = clipboard (app w) /\
  api_log (request_reply create w) =
    api_log w ++ [request_of (strip (chars (email_input (app w))))
                             (tone_var (app w))] /\
  Idle (request_reply create w).
Proof.
  intros Hth Haq Hne Hc Hcontent Hp. rewrite request_reply_valid by assumption.
  rewrite Hc. cbn [callback_of run_callback]. rewrite Hcontent.
  rewrite (_update_reply_plain reply _ Hp). repeat split.
Qed.

Lemma X5_successful_request_witness :
  reply_output (app (request_reply stub_ok initial_world)) =
    mkText (lit "Sure, how about Friday?") DISABLED /\
  status_var (app (request_reply stub_ok initial_world)) =
    lit "Reply generated successfully" /\
  email_input (app (request_reply stub_ok initial_world)) =
    email_input (app initial_world) /\
  tone_var (app (request_reply stub_ok initial_world)) =
    tone_var (app initial_world) /\
  clipboard (app (request_reply stub_ok initial_world)) =
    clipboard (app initial_world) /\
  api_log (request_reply stub_ok initial_world) =
    api_log initial_world ++
    [request_of (strip (chars (email_input (app initial_world))))
                (tone_var (app initial_world))] /\
  Idle (request_reply stub_ok initial_world).
Proof.
  apply (X5_successful_request stub_ok initial_world
           (mkChoice (mkMessage (Some (lit "Sure, how about Friday?")))) []
           (lit "Sure, how about Friday?")).
  - reflexivity.
  - reflexivity.
  - vm_compute. discriminate.
  - reflexivity.
  - reflexivity.
  - reflexivity.
Defined.



(** X7.  A completion without candidates is reported like a failure of the
    service: [choices[0]] raises inside the [try], and the request ends with
    the status "Error: OpenAI API error: list index out of range", the output
    widget as it was and the button enabled. *)
Theorem X7_completion_without_candidates
    (create : kwargs -> result ChatCompletion) (w : World) :
  threads w = [] -> after_queue w = [] ->
  strip (chars (email_input (app w))) <> [] ->
  create (request_of (strip (chars (email_input (app w)))) (tone_var (app w))) =
    Return (mkCompletion []) ->
  status_var (app (request_reply create w)) =
    lit "Error: OpenAI API error: list index out of range" /\
  reply_output (app (request_reply create w)) = reply_output (app w) /\
  Idle (request_reply create w).
Proof.
  intros Hth Haq Hne Hc. rewrite request_reply_valid by assumption.
  rewrite Hc. repeat split.
Qed.

Lemma X7_completion_without_candidates_witness :
  status_var (app (request_reply stub_empty initial_world)) =
    lit "Error: OpenAI API error: list index out of range" /\
  reply_output (app (request_reply stub_empty initial_world)) =
    reply_output (app initial_world) /\
  Idle (request_reply stub_empty initial_world).
Proof.
  apply (X7_completion_without_candidates stub_empty initial_world).
  - reflexivity.
  - reflexivity.
  - vm_compute. discriminate.
  - reflexivity.
Defined.

(** X8.  [_update_reply] with a plain text replaces what the output widget
    held, although the widget is read-only: it returns, the widget is
    read-only again with exactly the text, and the state is the same whatever
    was delivered before, a reply [insert] raised for included. *)
Theorem X8_update_reply_overwrites
    (reply1 : option str) (reply2 : str) (a : App) :
  plain reply2 = true ->
  snd (_update_reply (Some reply2) a) = Normally /\
  reply_output (fst (_update_reply (Some reply2) a)) = mkText reply2 DISABLED /\
  fst (_update_reply (Some reply2) (fst (_update_reply reply1 a))) =
    fst (_update_reply (Some reply2) a).
Proof.
  intros Hp. rewrite !(_update_reply_plain reply2 _ Hp).
  split; [reflexivity|]. split; [reflexivity|].
  destruct (tcl_of reply1) as [text|] eqn:H.
  - rewrite (_update_reply_accepted reply1 text a H). reflexivity.
  - rewrite (_update_reply_refused reply1 a H). reflexivity.
Qed.

Lemma X8_update_reply_overwrites_witness :
  snd (_update_reply (Some (lit "Second")) (app_with [] (lit "formal"))) =
    Normally /\
  reply_output (fst (_update_reply (Some (lit "Second"))
                                   (app_with [] (lit "formal")))) =
    mkText (lit "Second") DISABLED /\
  fst (_update_reply (Some (lit "Second"))
         (fst (_update_reply None (app_with [] (lit "formal"))))) =
    fst (_update_reply (Some (lit "Second")) (app_with [] (lit "formal"))).
Proof.
  apply (X8_update_reply_overwrites None (lit "Second")
           (app_with [] (lit "formal"))).
  reflexivity.
Defined.

(** X9.  [copy_to_clipboard] replaces what the clipboard held by the text the
    output widget returns (its text and the final newline), also when the
    widget is empty; it changes no widget, and copying twice is copying
    once. *)
Theorem X9_copy_replaces_clipboard (a : App) :
  clipboard (copy_to_clipboard a) = chars (reply_output a) ++ NL /\
  copy_to_clipboard (copy_to_clipboard a) = copy_to_clipboard a /\
  clipboard (copy_to_clipboard (clear_fields a)) = NL /\
  email_input (copy_to_clipboard a) = email_input a /\
  reply_output (copy_to_clipboard a) = reply_output a /\
  generate_button (copy_to_clipboard a) = generate_button a /\
  status_var (copy_to_clipboard a) = lit "Copied to clipboard".
Proof. repeat split. Qed.

(** X10.  [clear_fields] does not cancel a request: the button stays
    disabled, and a plain reply is delivered into the cleared output widget,
    whether the fields are cleared before the thread has run or after. *)
Theorem X10_clear_does_not_cancel
    (create : kwargs -> result ChatCompletion) (w : World) (c : Choice)
    (rest : list Choice) (reply : str) :
  threads w = [] -> after_queue w = [] ->
  tstate (email_input (app w)) = NORMAL ->
  strip (chars (email_input (app w))) <> [] ->
  create (request_of (strip (chars (email_input (app w)))) (tone_var (app w))) =
    Return (mkCompletion (c :: rest)) ->
  content (message c) = Some reply ->
  plain reply = true ->
  generate_button (app (on_app clear_fields (generate_reply w))) = DISABLED /\
  (forall w',
     w' = run_after (on_app clear_fields (run_thread create (generate_reply w))) \/
     w' = run_after (run_thread create (on_app clear_fields (generate_reply w))) ->
     reply_output (app w') = mkText reply DISABLED /\
     email_input (app w') = mkText [] NORMAL /\
     status_var (app w') = lit "Reply generated successfully" /\
     Idle w').
Proof.
  intros Hth Haq Hst Hne Hc Hcontent Hp.
  assert (Hs : strip (get_all (email_input (app w))) <> [])
    by (rewrite strip_get_all; exact Hne).
  rewrite generate_reply_valid by exact Hs. rewrite strip_get_all.
  split; [reflexivity|].
  intros w' [-> | ->]; unfold run_thread, on_app; cbn [threads app after_queue api_log];
    rewrite Hth; cbn [List.app]; rewrite _process_reply_callback, Hc;
    unfold run_after; cbn [after_queue app threads api_log callback_of];
    rewrite Haq; cbn [List.app run_callback app]; rewrite Hcontent;
    rewrite (_update_reply_plain reply _ Hp); cbn [fst];
    (split; [reflexivity|]); (split; [|split; [reflexivity | repeat split]]);
    cbn; unfold delete_all; rewrite Hst; reflexivity.
Qed.

Lemma X10_clear_does_not_cancel_witness :
  generate_button (app (on_app clear_fields (generate_reply initial_world))) =
    DISABLED /\
  (forall w',
     w' = run_after (on_app clear_fields
                       (run_thread stub_ok (generate_reply initial_world))) \/
     w' = run_after (run_thread stub_ok
                       (on_app clear_fields (generate_reply initial_world))) ->
     reply_output (app w') = mkText (lit "Sure, how about Friday?") DISABLED /\
     email_input (app w') = mkText [] NORMAL /\
     status_var (app w') = lit "Reply generated successfully" /\
     Idle w').
Proof.
  apply (X10_clear_does_not_cancel stub_ok initial_world
           (mkChoice (mkMessage (Some (lit "Sure, how about Friday?")))) []
           (lit "Sure, how about Friday?")).
  - reflexivity.
  - reflexivity.
  - reflexivity.
  - vm_compute. discriminate.
  - reflexivity.
  - reflexivity.
  - reflexivity.
Defined.

(** X11.  Whitespace typed around a text does not change the call: the
    request sent for the padded text is the request sent for the text. *)
Theorem X11_padding_does_not_change_the_call
    (create : kwargs -> result ChatCompletion) (w : World) (pre s post : str) :
  all_whitespace pre -> all_whitespace post ->
  run_thread create (generate_reply (on_app (edit_input (pre ++ s ++ post)) w)) =
  on_app (edit_input (pre ++ s ++ post))
    (run_thread create (generate_reply (on_app (edit_input s) w))) /\
  api_log (run_thread create
             (generate_reply (on_app (edit_input (pre ++ s ++ post)) w))) =
  api_log (run_thread create (generate_reply (on_app (edit_input s) w))).
Proof.
  intros Hpre Hpost.
  assert (H : run_thread create
                (generate_reply (on_app (edit_input (pre ++ s ++ post)) w)) =
              on_app (edit_input (pre ++ s ++ post))
                (run_thread create (generate_reply (on_app (edit_input s) w)))).
  { unfold generate_reply. cbn [on_app app edit_input on_email_input email_input
      tone_var]. rewrite !strip_get_all. cbn [chars].
    rewrite (strip_padding pre s post Hpre Hpost).
    destruct (strip s) as [|c0 r0]; cbn [truthy negb].
    - unfold run_thread, on_app. cbn [threads]. destruct (threads w) as [|[e t] l].
      + reflexivity.
      + rewrite !_process_reply_callback. reflexivity.
    - unfold run_thread, on_app, thread_start. cbn [threads app after_queue api_log].
      destruct (threads w) as [|[e t] l]; cbn [List.app];
        rewrite !_process_reply_callback; reflexivity. }
  split; [exact H|]. rewrite H. reflexivity.
Qed.

Lemma X11_padding_does_not_change_the_call_witness :
  api_log (run_thread stub_ok
             (generate_reply (on_app (edit_input (lit "  " ++ lit "Hi" ++ [10; 9]))
                                     initial_world))) =
  api_log (run_thread stub_ok
             (generate_reply (on_app (edit_input (lit "Hi")) initial_world))).
Proof.
  apply (X11_padding_does_not_change_the_call stub_ok initial_world
           (lit "  ") (lit "Hi") [10; 9]); repeat constructor.
Defined.

(** X12.  The text given to the service is a piece of the text of the widget:
    what [generate_reply] hands to the thread is the text between a run of
    whitespace in front and a run of whitespace behind, so nothing inside the
    text is changed. *)
Theorem X12_text_sent_is_a_piece_of_the_input (w : World) (e t : str) :
  threads (generate_reply w) = threads w ++ [(e, t)] ->
  t = tone_var (app w) /\
  exists pre post,
    chars (email_input (app w)) = pre ++ e ++ post /\
    all_whitespace pre /\ all_whitespace post /\ e <> [].
Proof.
  unfold generate_reply. rewrite strip_get_all.
  destruct (strip (chars (email_input (app w)))) as [|c0 r0] eqn:Hs;
    cbn [truthy negb].
  - unfold on_app. cbn [threads]. intros H.
    apply (f_equal (@length (str * str))) in H.
    rewrite length_app in H. simpl in H. lia.
  - unfold thread_start, on_app. cbn [threads app tone_var set_status config_button].
    intros H. apply app_inv_head in H. injection H as He Ht.
    split; [congruence|].
    destruct (strip_split (chars (email_input (app w)))) as (pre & post & Heq & Hpre & Hpost).
    exists pre, post. rewrite Hs, He in Heq.
    split; [exact Heq|]. split; [exact Hpre|]. split; [exact Hpost|].
    rewrite <- He. discriminate.
Qed.

Lemma X12_text_sent_is_a_piece_of_the_input_witness :
  lit "casual" = tone_var (app (world_with (lit " Hi there  ") (lit "casual"))) /\
  exists pre post,
    chars (email_input (app (world_with (lit " Hi there  ") (lit "casual")))) =
      pre ++ lit "Hi there" ++ post /\
    all_whitespace pre /\ all_whitespace post /\ lit "Hi there" <> [].
Proof.
  apply (X12_text_sent_is_a_piece_of_the_input
           (world_with (lit " Hi there  ") (lit "casual"))
           (lit "Hi there") (lit "casual")).
  reflexivity.
Defined.

(** X13.  The placeholder is ordinary text of the input widget: when the
    program has started, pressing "Generate Reply" at once passes validation
    and sends the placeholder to the service, in the "formal" tone. *)
Theorem X13_placeholder_is_sent
    (create : kwargs -> result ChatCompletion) (environ : gmap str str)
    (key : str) :
  getenv environ (lit "OPENAI_API_KEY") = Some key -> key <> [] ->
  exists evs w,
    main environ = (evs, Return w) /\
    chars (email_input (app w)) =
      lit "Enter the email you want to reply to here..." /\
    api_log (run_thread create (click_generate w)) =
      [request_of (lit "Enter the email you want to reply to here...")
                  (lit "formal")].
Proof.
  intros Hk Hne. exists (startup_events key), initial_world.
  rewrite main_cases, Hk. destruct key as [|c r]; [congruence|].
  split; [reflexivity|]. split; [reflexivity|].
  unfold click_generate. cbn [initial_world app generate_button].
  rewrite generate_reply_valid by (vm_compute; discriminate).
  unfold run_thread. cbn [threads].
  change (threads initial_world) with (@nil (str * str)). cbn [List.app].
  rewrite _process_reply_callback. reflexivity.
Qed.

Lemma X13_placeholder_is_sent_witness :
  exists evs w,
    main environ_with_key = (evs, Return w) /\
    chars (email_input (app w)) =
      lit "Enter the email you want to reply to here..." /\
    api_log (run_thread stub_ok (click_generate w)) =
      [request_of (lit "Enter the email you want to reply to here...")
                  (lit "formal")].
Proof.
  apply (X13_placeholder_is_sent stub_ok environ_with_key (lit "sk-test")).
  - apply environ_with_key_lookup.
  - discriminate.
Defined.

(** X14.  The start-up depends on the environment through the key only.  With
    a key that is not empty the client is built with that key and the event
    loop starts from the same state, whatever the key; an empty key is refused
    like a missing one, before the client is built; and the program never
    starts without a key. *)
Theorem X14_startup_by_key (environ : gmap str str) :
  (forall key, getenv environ (lit "OPENAI_API_KEY") = Some key -> key <> [] ->
     main environ = (startup_events key, Return initial_world)) /\
  (getenv environ (lit "OPENAI_API_KEY") = Some [] ->
     exists evs e, main environ = (evs, Raise e) /\
                   exn_class e = lit "ValueError" /\
                   ~ In EvMainloop evs /\
                   (forall k, ~ In (EvOpenAI k) evs)) /\
  (forall evs w, main environ = (evs, Return w) ->
     exists key, getenv environ (lit "OPENAI_API_KEY") = Some key /\
                 key <> [] /\ In (EvOpenAI key) evs /\ In EvMainloop evs).
Proof.
  rewrite main_cases. split; [|split].
  - intros key -> Hne. destruct key; [congruence | reflexivity].
  - intros ->. eexists _, _. split; [reflexivity|]. split; [reflexivity|].
    split; [|intros k]; cbn [In]; intros [?|[?|[?|[?|[]]]]]; discriminate.
  - intros evs w.
    destruct (getenv environ (lit "OPENAI_API_KEY")) as [[|c r]|];
      try discriminate.
    intros [= <- _]. exists (c :: r). split; [reflexivity|].
    split; [discriminate|]. unfold startup_events. cbn [In]. tauto.
Qed.

Lemma X14_startup_by_key_witness :
  main environ_with_key = (startup_events (lit "sk-test"), Return initial_world) /\
  exists evs e, main {[ lit "OPENAI_API_KEY" := [] ]} = (evs, Raise e) /\
                exn_class e = lit "ValueError" /\
                ~ In EvMainloop evs /\
                (forall k, ~ In (EvOpenAI k) evs).
Proof.
  split.
  - apply (X14_startup_by_key environ_with_key);
      [apply environ_with_key_lookup | discriminate].
  - apply (X14_startup_by_key {[ lit "OPENAI_API_KEY" := [] ]}).
    unfold getenv. apply lookup_singleton_eq.
Defined.

(** X15.  [load_dotenv] gives way to the environment: when the environment has
    the key, even an empty one, the script starts as if there were no [.env]
    file; the key of the file counts only when the environment has none. *)
Theorem X15_environment_wins_over_dotenv (dotenv environ : gmap str str) :
  (forall key, environ !! lit "OPENAI_API_KEY" = Some key ->
     script dotenv environ = main environ) /\
  (environ !! lit "OPENAI_API_KEY" = None ->
     script dotenv environ = main dotenv).
Proof.
  unfold script. rewrite !main_cases. unfold getenv, load_dotenv. split.
  - intros key H. rewrite (lookup_union_Some_l environ dotenv _ key H), H.
    reflexivity.
  - intros H. rewrite (lookup_union_r environ dotenv _ H). reflexivity.
Qed.

Lemma X15_environment_wins_over_dotenv_witness :
  script environ_with_key {[ lit "OPENAI_API_KEY" := [] ]} =
    main {[ lit "OPENAI_API_KEY" := [] ]} /\
  script environ_with_key ∅ = main environ_with_key.
Proof.
  split.
  - apply (proj1 (X15_environment_wins_over_dotenv environ_with_key
                    {[ lit "OPENAI_API_KEY" := [] ]}) []).
    apply lookup_singleton_eq.
  - apply (proj2 (X15_environment_wins_over_dotenv environ_with_key ∅)).
    apply lookup_empty.
Defined.

(** X16.  Every call the program has sent, in any state it reaches, was built
    by [generate_email_reply] from a tone of the selector and a text that is
    not empty and has no whitespace at either end; so are the arguments of the
    thread that has not run yet. *)
Theorem X16_every_call_is_sound
    (create : kwargs -> result ChatCompletion) (environ : gmap str str)
    (w : World) :
  reachable create environ w ->
  (forall request, In request (api_log w) ->
     exists e t, request = request_of e t /\
                 e <> [] /\ strip e = e /\ In t tones) /\
  (forall e t, In (e, t) (threads w) ->
     e <> [] /\ strip e = e /\ In t tones).
Proof.
  intros Hr.
  enough (H : Forall sound_request (api_log w) /\ Forall valid_args (threads w)).
  { destruct H as [Hlog Hth]. rewrite List.Forall_forall in Hlog, Hth. split.
    - intros request Hin. destruct (Hlog request Hin) as (e & t & -> & Hv).
      exists e, t. split; [reflexivity | exact Hv].
    - intros e t Hin. exact (Hth (e, t) Hin). }
  induction Hr as [evs w Hmain|w w' Hr [IHlog IHth] Hstep].
  - rewrite main_cases in Hmain.
    destruct (getenv environ (lit "OPENAI_API_KEY")) as [[|c r]|];
      try discriminate.
    injection Hmain as _ <-. split; constructor.
  - destruct (reachable_well_formed create environ w Hr) as (_ & _ & Htone & _).
    destruct Hstep as [w s|w t Ht|w s Hn|w|w|w|w Hne|w Hne];
      try (split; assumption).
    + unfold click_generate. destruct (generate_button (app w));
        [|split; assumption].
      unfold generate_reply.
      destruct (strip (get_all (email_input (app w)))) as [|c0 r0] eqn:Hs;
        cbn [truthy negb]; [split; assumption|].
      split; [exact IHlog|]. cbn [threads thread_start on_app app tone_var
        set_status config_button].
      apply Forall_app. split; [exact IHth|]. constructor; [|constructor].
      split; [discriminate|]. split; [|exact Htone].
      cbn [fst]. rewrite <- Hs. apply strip_idem.
    + unfold run_thread. destruct (threads w) as [|[e t] l]; [contradiction|].
      rewrite _process_reply_callback. cbn [api_log threads].
      apply Forall_cons_iff in IHth. destruct IHth as [Hv Hl].
      split; [|exact Hl]. apply Forall_app. split; [exact IHlog|].
      constructor; [|constructor]. exists e, t. split; [reflexivity | exact Hv].
    + unfold run_after. destruct (after_queue w); split; assumption.
Qed.

Lemma X16_every_call_is_sound_witness :
  (forall request,
     In request (api_log (run_thread stub_ok (click_generate initial_world))) ->
     exists e t, request = request_of e t /\
                 e <> [] /\ strip e = e /\ In t tones) /\
  (forall e t,
     In (e, t) (threads (run_thread stub_ok (click_generate initial_world))) ->
     e <> [] /\ strip e = e /\ In t tones).
Proof.
  apply (X16_every_call_is_sound stub_ok environ_with_key).
  eapply reach_step; [apply busy_world_reachable|].
  apply step_thread. vm_compute. discriminate.
Defined.

(** X17.  With a service whose texts are plain the output widget only ever
    shows what the service returned: in every state the program reaches the
    widget is read-only, and its text is empty or is the content of the first
    candidate of the completion returned to one of the calls the program has
    sent. *)
Theorem X17_output_comes_from_the_service
    (create : kwargs -> result ChatCompletion) (environ : gmap str str)
    (w : World) :
  plain_service create ->
  reachable create environ w ->
  tstate (reply_output (app w)) = DISABLED /\
  (chars (reply_output (app w)) = [] \/
   exists request c rest,
     In request (api_log w) /\
     create request = Return (mkCompletion (c :: rest)) /\
     content (message c) = Some (chars (reply_output (app w)))).
Proof.
  intros Hplain Hr.
  enough (H : (tstate (reply_output (app w)) = DISABLED /\
               (chars (reply_output (app w)) = [] \/
                from_service create (api_log w) (chars (reply_output (app w))))) /\
              Forall (callback_from_service create (api_log w)) (after_queue w))
    by exact (proj1 H).
  induction Hr as [evs w Hmain|w w' Hr [[IHst IHout] IHq] Hstep].
  - rewrite main_cases in Hmain.
    destruct (getenv environ (lit "OPENAI_API_KEY")) as [[|c r]|];
      try discriminate.
    injection Hmain as _ <-.
    split; [split; [reflexivity | left; reflexivity] | constructor].
  - destruct Hstep as [w s|w t Ht|w s Hn|w|w|w|w Hne|w Hne];
      try (split; [split|]; assumption).
    + congruence.
    + unfold click_generate. destruct (generate_button (app w));
        [|split; [split|]; assumption].
      unfold generate_reply.
      destruct (strip (get_all (email_input (app w))));
        split; try split; assumption.
    + split; [split; [reflexivity | left; reflexivity] | exact IHq].
    + unfold run_thread. destruct (threads w) as [|[e t] l]; [contradiction|].
      rewrite _process_reply_callback. cbn [app api_log after_queue].
      split; [split; [exact IHst|]|].
      * destruct IHout as [H|H]; [left; exact H | right].
        apply from_service_app. exact H.
      * apply Forall_app. split.
        -- eapply Forall_impl; [exact IHq|].
           intros [reply|msg] H; [|exact I].
           destruct H as (text & Hr1 & Hp & Hfs). exists text.
           split; [exact Hr1|]. split; [exact Hp|].
           apply from_service_app. exact Hfs.
        -- constructor; [|constructor].
           apply callback_of_from_service. exact Hplain.
    + unfold run_after. destruct (after_queue w) as [|cb q]; [contradiction|].
      apply Forall_cons_iff in IHq. destruct IHq as [Hcb Hq].
      cbn [app api_log after_queue]. split; [|exact Hq].
      destruct cb as [reply|msg]; [|split; assumption].
      destruct Hcb as (text & -> & Hp & Hfs). cbn [run_callback].
      rewrite (_update_reply_plain text _ Hp).
      split; [reflexivity | right; exact Hfs].
Qed.

Lemma X17_output_comes_from_the_service_witness :
  tstate (reply_output (app (request_reply stub_ok initial_world))) = DISABLED /\
  (chars (reply_output (app (request_reply stub_ok initial_world))) = [] \/
   exists request c rest,
     In request (api_log (request_reply stub_ok initial_world)) /\
     stub_ok request = Return (mkCompletion (c :: rest)) /\
     content (message c) =
       Some (chars (reply_output (app (request_reply stub_ok initial_world))))).
Proof.
  apply (X17_output_comes_from_the_service stub_ok environ_with_key).
  - intros request c rest [= <-]. eexists. split; reflexivity.
  - unfold request_reply.
    eapply reach_step;
      [eapply reach_step; [apply (busy_world_reachable stub_ok)|]|].
    + apply step_thread. vm_compute. discriminate.
    + apply step_after. vm_compute. discriminate.
Defined.

(** X18.  The request is fixed when the button is pressed: editing the input
    or picking another tone while the thread has not run changes neither the
    text nor the tone of the call. *)
Theorem X18_request_is_fixed_at_the_press
    (create : kwargs -> result ChatCompletion) (w : World) (s' t' : str) :
  threads w = [] ->
  strip (chars (email_input (app w))) <> [] ->
  api_log (run_thread create
             (on_app (select_tone t') (on_app (edit_input s') (generate_reply w)))) =
    api_log w ++ [request_of (strip (chars (email_input (app w))))
                             (tone_var (app w))] /\
  email_input (app (run_thread create
             (on_app (select_tone t') (on_app (edit_input s') (generate_reply w))))) =
    mkText s' (tstate (email_input (app w))) /\
  tone_var (app (run_thread create
             (on_app (select_tone t') (on_app (edit_input s') (generate_reply w))))) =
    t'.
Proof.
  intros Hth Hne.
  rewrite generate_reply_valid by (rewrite strip_get_all; exact Hne).
  rewrite strip_get_all. unfold run_thread, on_app. cbn [threads].
  rewrite Hth. cbn [List.app]. rewrite _process_reply_callback.
  repeat split.
Qed.

Lemma X18_request_is_fixed_at_the_press_witness :
  api_log (run_thread stub_ok
             (on_app (select_tone (lit "casual"))
                (on_app (edit_input (lit "Something else"))
                   (generate_reply (world_with (lit "Hi") (lit "formal")))))) =
    [] ++ [request_of (strip (lit "Hi")) (lit "formal")].
Proof.
  apply (X18_request_is_fixed_at_the_press stub_ok
           (world_with (lit "Hi") (lit "formal")) (lit "Something else")
           (lit "casual")).
  - reflexivity.
  - vm_compute. discriminate.
Defined.



(** X20.  The program changes the text of the input widget only in
    [clear_fields], and the clipboard only in [copy_to_clipboard]: a step that
    is neither an edit by the user nor a press of "Clear" leaves the input
    widget as it is, and a step that is not a press of "Copy to Clipboard"
    leaves the clipboard as it is.  Generating a reply, with success or not,
    touches neither. *)
Theorem X20_input_and_clipboard_frame
    (create : kwargs -> result ChatCompletion) (w w' : World) :
  step create w w' ->
  (email_input (app w') = email_input (app w) \/
   (exists s, w' = on_app (edit_input s) w) \/
   w' = on_app clear_fields w) /\
  (clipboard (app w') = clipboard (app w) \/
   w' = on_app copy_to_clipboard w).
Proof.
  intros Hstep. destruct Hstep as [w s|w t Ht|w s Hn|w|w|w|w Hne|w Hne].
  - split; [right; left; exists s; reflexivity | left; reflexivity].
  - split; left; reflexivity.
  - split; left; reflexivity.
  - unfold click_generate. destruct (generate_button (app w));
      [|split; left; reflexivity].
    unfold generate_reply.
    destruct (strip (get_all (email_input (app w)))); split; left; reflexivity.
  - split; [right; right; reflexivity | left; reflexivity].
  - split; [left; reflexivity | right; reflexivity].
  - unfold run_thread. destruct (threads w) as [|[e t] l]; [contradiction|].
    rewrite _process_reply_callback. split; left; reflexivity.
  - unfold run_after. destruct (after_queue w) as [|cb q]; [contradiction|].
    destruct (run_callback_widgets cb (app w)) as (Hi & _ & _).
    split; left; [exact Hi|].
    destruct cb as [reply|msg]; [|reflexivity]. cbn [run_callback app].
    destruct (tcl_of reply) as [text|] eqn:H.
    + rewrite (_update_reply_accepted reply text _ H). reflexivity.
    + rewrite (_update_reply_refused reply _ H). reflexivity.
Qed.

Lemma X20_input_and_clipboard_frame_witness :
  (email_input (app (run_after (run_thread stub_ok (click_generate initial_world)))) =
     email_input (app (run_thread stub_ok (click_generate initial_world))) \/
   (exists s, run_after (run_thread stub_ok (click_generate initial_world)) =
              on_app (edit_input s)
                (run_thread stub_ok (click_generate initial_world))) \/
   run_after (run_thread stub_ok (click_generate initial_world)) =
     on_app clear_fields (run_thread stub_ok (click_generate initial_world))) /\
  (clipboard (app (run_after (run_thread stub_ok (click_generate initial_world)))) =
     clipboard (app (run_thread stub_ok (click_generate initial_world))) \/
   run_after (run_thread stub_ok (click_generate initial_world)) =
     on_app copy_to_clipboard (run_thread stub_ok (click_generate initial_world))).
Proof.
  apply (X20_input_and_clipboard_frame stub_ok
           (run_thread stub_ok (click_generate initial_world))).
  apply step_after. vm_compute. discriminate.
Defined.
